(** * traffic_mangement: the route API of [app4.py]

    A shallow embedding of the Flask handler [api_route] and of its helpers
    [geocode_place], [mapbox_directions] and [color_for_congestion], and the
    properties of the response it assembles.

    The program is dynamically typed Python working on decoded JSON, so the
    embedding keeps the values untyped ([pyval]) and gives every primitive
    the program uses (attribute access, subscripts, [len], unpacking,
    arithmetic, [round]) the outcome Python gives it, exceptions included.
    Outbound HTTP calls are the only effect: they are nodes of a small free
    monad ([io]) that [run] interprets against the replies of the network.

    Left out: the page view [home], the two [print] calls of [api_route],
    and the serialization done by [jsonify]: a response is the object
    handed to [jsonify], with its status, and what the serializer does
    with it afterwards (the text it writes, its refusal of an int too long
    to print) is not part of the model.  Characters are the code points
    below 256. *)

From Stdlib Require Import ZArith List String Ascii Bool Lia.
From Stdlib Require Import Floats.SpecFloat.
From ExtLib Require Import Structures.Monad.
Import ListNotations.
Import MonadNotation.
Local Open Scope monad_scope.
Local Open Scope string_scope.
Local Open Scope Z_scope.

(** ** Python values *)

Set Warnings "-register-all".

(** The values the handler manipulates: what [json] decoding yields, which
    is also what [jsonify] takes.  A [str] is a [string], one [ascii] per
    character; an [int] is unbounded; a [float] is an IEEE 754 binary64
    number ([spec_float] at precision 53 and maximal exponent 1024); a
    [dict] keeps its items in insertion order, and its keys are strings,
    all distinct. *)
Inductive pyval : Type :=
| PNone
| PBool (b : bool)
| PInt (z : Z)
| PFloat (f : spec_float)
| PStr (s : string)
| PList (l : list pyval)
| PDict (d : list (string * pyval)).

(** The exceptions that can escape the handler. *)
Inductive exn : Type :=
| AttributeError
| TypeError
| KeyError
| IndexError
| ValueError
| OverflowError
| RequestException   (* requests: connection failure or timeout *)
| HTTPError          (* requests: raise_for_status *)
| JSONDecodeError.   (* requests: the body is not JSON *)

(** Outcome of an expression that may raise. *)
Inductive result (A : Type) : Type :=
| Ok (a : A)
| Exn (e : exn).
Arguments Ok {A} a.
Arguments Exn {A} e.

#[global] Instance Monad_result : Monad result :=
  {| ret := fun _ a => Ok a;
     bind := fun _ _ m f => match m with Ok a => f a | Exn e => Exn e end |}.

(** ** Primitives on values *)

Module Py.

(** [bool(v)]: the truth value of an object. *)
Definition truthy (v : pyval) : bool :=
  match v with
  | PNone => false
  | PBool b => b
  | PInt z => negb (z =? 0)
  | PFloat (S754_zero _) => false
  | PFloat _ => true
  | PStr s => negb (String.eqb s "")
  | PList l => match l with [] => false | _ => true end
  | PDict d => match d with [] => false | _ => true end
  end.

(** [v is None]. *)
Definition is_none (v : pyval) : bool :=
  match v with PNone => true | _ => false end.

(** [a or b]. *)
Definition or_ (a b : pyval) : pyval := if truthy a then a else b.

(** Lookup of a key among the items of a dict. *)
Fixpoint lookup (k : string) (d : list (string * pyval)) : option pyval :=
  match d with
  | [] => None
  | (k', v) :: d' => if String.eqb k k' then Some v else lookup k d'
  end.

(** [v.get(k, default)]: only a dict has the method. *)
Definition get (v : pyval) (k : string) (default : pyval) : result pyval :=
  match v with
  | PDict d => Ok (match lookup k d with Some x => x | None => default end)
  | _ => Exn AttributeError
  end.

(** [v[k]] for a string [k]. *)
Definition getitem_str (v : pyval) (k : string) : result pyval :=
  match v with
  | PDict d => match lookup k d with Some x => Ok x | None => Exn KeyError end
  | _ => Exn TypeError
  end.

(** The characters of a str, each as a str of length one. *)
Fixpoint chars (s : string) : list pyval :=
  match s with
  | EmptyString => []
  | String c s' => PStr (String c EmptyString) :: chars s'
  end.

(** Index [i] of a sequence, negative indices
    counting from the end. *)
Definition index (l : list pyval) (i : Z) : result pyval :=
  let n := Z.of_nat (List.length l) in
  if (0 <=? i) && (i <? n) then
    match nth_error l (Z.to_nat i) with Some x => Ok x | None => Exn IndexError end
  else if (- n <=? i) && (i <? 0) then
    match nth_error l (Z.to_nat (n + i)) with Some x => Ok x | None => Exn IndexError end
  else Exn IndexError.

(** [v[i]] for an int [i]; the keys of a decoded JSON object are strings,
    so an int is never among them. *)
Definition getitem_int (v : pyval) (i : Z) : result pyval :=
  match v with
  | PList l => index l i
  | PStr s => index (chars s) i
  | PDict _ => Exn KeyError
  | _ => Exn TypeError
  end.

(** [len(v)]. *)
Definition len (v : pyval) : result Z :=
  match v with
  | PList l => Ok (Z.of_nat (List.length l))
  | PStr s => Ok (Z.of_nat (String.length s))
  | PDict d => Ok (Z.of_nat (List.length d))
  | _ => Exn TypeError
  end.

(** [iter(v)], run to the end: the items of a list, the characters of a
    str, the keys of a dict. *)
Definition iter (v : pyval) : result (list pyval) :=
  match v with
  | PList l => Ok l
  | PStr s => Ok (chars s)
  | PDict d => Ok (map (fun kv => PStr (fst kv)) d)
  | _ => Exn TypeError
  end.

(** [a, b = v]. *)
Definition unpack2 (v : pyval) : result (pyval * pyval) :=
  match iter v with
  | Ok [a; b] => Ok (a, b)
  | Ok _ => Exn ValueError
  | Exn e => Exn e
  end.

(** [range(n)]. *)
Definition range (n : Z) : list Z :=
  map Z.of_nat (seq 0 (Z.to_nat n)).

(** [enumerate(l)]. *)
Definition enumerate {A} (l : list A) : list (Z * A) :=
  combine (range (Z.of_nat (List.length l))) l.

(** Whether an object can be a dict key: lists and dicts cannot. *)
Definition hashable (v : pyval) : bool :=
  match v with
  | PList _ | PDict _ => false
  | _ => true
  end.

(** [isinstance(v, (int, float))]; [bool] is a subclass of [int]. *)
Definition is_int_or_float (v : pyval) : bool :=
  match v with
  | PBool _ | PInt _ | PFloat _ => true
  | _ => false
  end.

End Py.

(** ** Numbers *)

(** Python floats are binary64; arithmetic on them rounds to nearest, ties
    to even, which is what [SpecFloat] implements. *)
Module PyFloat.

Definition prec : Z := 53.
Definition emax : Z := 1024.

Definition sub : spec_float -> spec_float -> spec_float := SFsub prec emax.
Definition mul : spec_float -> spec_float -> spec_float := SFmul prec emax.

(** The float nearest to the integer [z] ([float(z)] before its overflow
    check). *)
Definition of_Z (z : Z) : spec_float := binary_normalize prec emax z 0 false.

(** The float nearest to [n / d], with the sign [s]: the value of a decimal
    literal, and what [strtod] returns. *)
Definition of_ratio (s : bool) (n d : positive) : spec_float :=
  let '(q, e, l) := SFdiv_core_binary prec emax (Zpos n) 0 (Zpos d) 0 in
  binary_round_aux prec emax s q e l.

(** [m * 2^e] rounded to the nearest integer, ties to even. *)
Definition half_even (m : Z) (e : Z) : Z :=
  match e with
  | Zneg p =>
      let d := Z.pow_pos 2 p in
      let q := m / d in
      let r := m mod d in
      match 2 * r ?= d with
      | Lt => q
      | Gt => q + 1
      | Eq => if Z.even q then q else q + 1
      end
  | _ => m * 2 ^ e
  end.

(** [float.__round__()] with no digits: an int, or an exception on NaN and
    on the infinities. *)
Definition round0 (f : spec_float) : result Z :=
  match f with
  | S754_zero _ => Ok 0
  | S754_nan => Exn ValueError
  | S754_infinity _ => Exn OverflowError
  | S754_finite s m e =>
      let n := half_even (Zpos m) e in
      Ok (if s then - n else n)
  end.

(** [float.__round__(1)]: the decimal with one digit after the point that
    is nearest to the exact value (ties to even), read back as a float;
    NaN and the infinities round to themselves, and the sign is kept. *)
Definition round1 (f : spec_float) : spec_float :=
  match f with
  | S754_finite s m e =>
      match half_even (10 * Zpos m) e with
      | Zpos n => of_ratio s n 10
      | _ => S754_zero s
      end
  | _ => f
  end.

(** The literal [3.6]. *)
Definition lit_3_6 : spec_float := S754_finite false 8106479329266893 (-51).

End PyFloat.

Module PyNum.

(** The value of an operand of arithmetic: a bool counts as the int 0 or 1. *)
Inductive num : Type :=
| NInt (z : Z)
| NFloat (f : spec_float).

Definition as_num (v : pyval) : option num :=
  match v with
  | PBool b => Some (NInt (if b then 1 else 0))
  | PInt z => Some (NInt z)
  | PFloat f => Some (NFloat f)
  | _ => None
  end.

(** [float(z)] for an int: fails when the nearest float is out of range. *)
Definition to_float (z : Z) : result spec_float :=
  match PyFloat.of_Z z with
  | S754_infinity _ => Exn OverflowError
  | f => Ok f
  end.

Definition float_of (n : num) : result spec_float :=
  match n with
  | NInt z => to_float z
  | NFloat f => Ok f
  end.

(** [a - b]. *)
Definition sub (a b : pyval) : result pyval :=
  match as_num a, as_num b with
  | Some (NInt x), Some (NInt y) => Ok (PInt (x - y))
  | Some x, Some y =>
      fx <- float_of x ;;
      fy <- float_of y ;;
      ret (PFloat (PyFloat.sub fx fy))
  | _, _ => Exn TypeError
  end.

(** [a * c] for a float [c]. *)
Definition mul_float (a : pyval) (c : spec_float) : result spec_float :=
  match as_num a with
  | Some x => fx <- float_of x ;; ret (PyFloat.mul fx c)
  | None => Exn TypeError
  end.

(** [round(v)]: always an int when it returns. *)
Definition round (v : pyval) : result Z :=
  match as_num v with
  | Some (NInt z) => Ok z
  | Some (NFloat f) => PyFloat.round0 f
  | None => Exn TypeError
  end.

End PyNum.

(** ** Strings of the request *)

Module PyStr.

(** [str.isspace] on one character, for the code points a [string] holds:
    TAB to CR, FS to US, space, NEL and the no-break space. *)
Definition isspace (c : ascii) : bool :=
  let n := N_of_ascii c in
  (((9 <=? n) && (n <=? 13)) || ((28 <=? n) && (n <=? 32))
   || (n =? 133) || (n =? 160))%N.

Fixpoint lstrip (s : string) : string :=
  match s with
  | EmptyString => EmptyString
  | String c s' => if isspace c then lstrip s' else s
  end.

Fixpoint rstrip (s : string) : string :=
  match s with
  | EmptyString => EmptyString
  | String c s' =>
      match rstrip s' with
      | EmptyString => if isspace c then EmptyString else String c EmptyString
      | r => String c r
      end
  end.

(** [s.strip()]. *)
Definition strip (s : string) : string := rstrip (lstrip s).

(** [not s] for a str. *)
Definition is_empty (s : string) : bool := String.eqb s "".

Fixpoint all_space (s : string) : bool :=
  match s with
  | EmptyString => true
  | String c s' => isspace c && all_space s'
  end.

End PyStr.

(** ** Outbound HTTP *)

(** An f-string, kept unformatted: its literal pieces and the values it
    interpolates, in order. *)
Inductive fpart : Type :=
| Lit (s : string)
| Fmt (v : pyval).

(** The arguments of one [requests.get]. *)
Record http_request : Type := {
  url : list fpart;
  params : list (string * pyval);
  timeout : Z
}.

(** What the network does with a request: no reply at all (connection
    error, timeout), or a reply with a status code and a body, whose JSON
    decoding is [body] ([None] when the body is not JSON). *)
Inductive http_reply : Type :=
| NoReply
| Reply (status_code : Z) (body : option pyval).

(** A [requests.Response]. *)
Record response : Type := {
  status_code : Z;
  json_body : option pyval
}.

(** Computations of the handler: they return, raise, or perform a GET and
    go on with the reply. *)
Inductive io (A : Type) : Type :=
| Ret (a : A)
| Raise (e : exn)
| Get (rq : http_request) (k : http_reply -> io A).
Arguments Ret {A} a.
Arguments Raise {A} e.
Arguments Get {A} rq k.

Fixpoint io_bind {A B} (m : io A) (f : A -> io B) : io B :=
  match m with
  | Ret a => f a
  | Raise e => Raise e
  | Get rq k => Get rq (fun r => io_bind (k r) f)
  end.

#[global] Instance Monad_io : Monad io :=
  {| ret := fun _ a => Ret a; bind := fun _ _ m f => io_bind m f |}.

(** A pure step inside a computation. *)
Definition lift {A} (r : result A) : io A :=
  match r with Ok a => Ret a | Exn e => Raise e end.

(** [run p net n]: the requests [p] sends, in order, and its outcome, when
    the network answers the [k]-th request of the process with
    [net k], [p] starting at request number [n]. *)
Fixpoint run {A} (p : io A) (net : nat -> http_reply) (n : nat)
  : list http_request * result A :=
  match p with
  | Ret a => ([], Ok a)
  | Raise e => ([], Exn e)
  | Get rq k =>
      let '(tr, r) := run (k (net n)) net (S n) in (rq :: tr, r)
  end.

Module Requests.

(** [requests.get(url, params=params, timeout=timeout)]. *)
Definition get (u : list fpart) (ps : list (string * pyval)) (t : Z)
  : io response :=
  Get {| url := u; params := ps; timeout := t |}
      (fun r => match r with
                | NoReply => Raise RequestException
                | Reply c b => Ret {| status_code := c; json_body := b |}
                end).

(** [r.raise_for_status()]: client and server error codes raise. *)
Definition raise_for_status (r : response) : result unit :=
  if (400 <=? status_code r) && (status_code r <? 600)
  then Exn HTTPError else Ok tt.

(** [r.json()]. *)
Definition json (r : response) : result pyval :=
  match json_body r with
  | Some v => Ok v
  | None => Exn JSONDecodeError
  end.

End Requests.

(** ** The application *)

(** A Flask response: [jsonify(body), status]. *)
Record flask_response : Type := {
  status : Z;
  body : pyval
}.

(** [out = []; for x in l: out.append(f(x))]: the first exception ends
    the loop. *)
Fixpoint for_each {A B} (f : A -> result B) (l : list A) : result (list B) :=
  match l with
  | [] => Ok []
  | x :: l' => y <- f x ;; ys <- for_each f l' ;; ret (y :: ys)
  end.

(** Equality of an object with a key of the color table, whose keys are
    strs and [None]. *)
Definition key_eqb (c k : pyval) : bool :=
  match c, k with
  | PStr a, PStr b => String.eqb a b
  | PNone, PNone => true
  | _, _ => false
  end.

(** [table.get(c, default)] on a dict literal: the key is hashed first. *)
Fixpoint table_lookup (c : pyval) (t : list (pyval * string)) : option string :=
  match t with
  | [] => None
  | (k, v) :: t' => if key_eqb c k then Some v else table_lookup c t'
  end.

Definition table_get (t : list (pyval * string)) (c : pyval) (default : string)
  : result string :=
  if Py.hashable c
  then Ok (match table_lookup c t with Some v => v | None => default end)
  else Exn TypeError.

Definition color_table : list (pyval * string) :=
  [ (PStr "low", "green");
    (PStr "moderate", "orange");
    (PStr "heavy", "red");
    (PStr "severe", "darkred");
    (PStr "unknown", "gray");
    (PNone, "gray") ].

(** The colors of the table. *)
Definition colors : list string := ["green"; "orange"; "red"; "darkred"; "gray"].

(** app4.py, lines 43-52. *)
Definition color_for_congestion (c : pyval) : result string :=
  table_get color_table c "gray".

Definition REQUEST_TIMEOUT : Z := 12.

(** [request.args.get(k, default)]: the first value of the key. *)
Fixpoint args_get (args : list (string * string)) (k default : string) : string :=
  match args with
  | [] => default
  | (k', v) :: args' => if String.eqb k k' then v else args_get args' k default
  end.

(** [a[i] if i < len(a) else None]. *)
Definition item_or_none (a : pyval) (i : Z) : result pyval :=
  n <- Py.len a ;;
  if i <? n then Py.getitem_int a i else ret PNone.

(** [round(speed_ms * 3.6, 1) if isinstance(speed_ms, (int, float)) else None]. *)
Definition speed_kmh_of (speed_ms : pyval) : result pyval :=
  if Py.is_int_or_float speed_ms
  then f <- PyNum.mul_float speed_ms PyFloat.lit_3_6 ;;
       ret (PFloat (PyFloat.round1 f))
  else ret PNone.

(** Lines 104-105: [lon, lat = coords[i]]. *)
Definition vertex (coords : pyval) (i : Z) : result (pyval * pyval) :=
  c <- Py.getitem_int coords i ;; Py.unpack2 c.

(** The body of the inner loop of [api_route] (lines 104-116): the segment
    record for index [i]. *)
Definition segment (coords congestions speeds seg_durations : pyval) (i : Z)
  : result pyval :=
  '(lon_a, lat_a) <- vertex coords i ;;
  '(lon_b, lat_b) <- vertex coords (i + 1) ;;
  cong <- item_or_none congestions i ;;
  speed_ms <- item_or_none speeds i ;;
  dur_s <- item_or_none seg_durations i ;;
  color <- color_for_congestion cong ;;
  speed_kmh <- speed_kmh_of speed_ms ;;
  ret (PDict [ ("coords", PList [PList [lat_a; lon_a]; PList [lat_b; lon_b]]);
               ("congestion", cong);
               ("color", PStr color);
               ("speed_kmh", speed_kmh);
               ("duration_s", dur_s) ]).

(** Line 92: the duration of the baseline route paired with position
    [ridx], or the live duration when there is none. *)
Definition base_duration_of (base_routes : pyval) (ridx : Z) (live_duration : pyval)
  : result pyval :=
  n_base <- Py.len base_routes ;;
  if ridx <? n_base
  then r <- Py.getitem_int base_routes ridx ;; Py.getitem_str r "duration"
  else ret live_duration.

(** Lines 94-95: the annotation of the first leg. *)
Definition first_annotation (live_route : pyval) : result pyval :=
  legs <- Py.get live_route "legs" PNone ;;
  leg <- Py.getitem_int (Py.or_ legs (PList [PDict []])) 0 ;;
  Py.get leg "annotation" (PDict []).

(** Lines 97-99: [ann.get(k, []) or []]. *)
Definition annotation_array (ann : pyval) (k : string) : result pyval :=
  a <- Py.get ann k (PList []) ;;
  ret (Py.or_ a (PList [])).

(** Line 100: the vertices of the geometry. *)
Definition route_coords (live_route : pyval) : result pyval :=
  geometry <- Py.get live_route "geometry" (PDict []) ;;
  Py.get geometry "coordinates" (PList []).

(** Lines 102-116: the segments of a live route. *)
Definition route_segments (live_route : pyval) : result (list pyval) :=
  ann <- first_annotation live_route ;;
  congestions <- annotation_array ann "congestion" ;;
  speeds <- annotation_array ann "speed" ;;
  seg_durations <- annotation_array ann "duration" ;;
  coords <- route_coords live_route ;;
  n <- Py.len coords ;;
  for_each (segment coords congestions speeds seg_durations) (Py.range (n - 1)).

(** Line 118: [max(0, round(live_duration - base_duration))]. *)
Definition delay_of (live_duration base_duration : pyval) : result Z :=
  diff <- PyNum.sub live_duration base_duration ;;
  rounded <- PyNum.round diff ;;
  ret (Z.max 0 rounded).

(** The body of the outer loop of [api_route] (lines 90-129): the payload
    of the live route at position [ridx]. *)
Definition route_payload (base_routes : pyval) (ridx : Z) (live_route : pyval)
  : result pyval :=
  distance_m <- Py.get live_route "distance" (PInt 0) ;;
  live_duration <- Py.get live_route "duration" (PInt 0) ;;
  base_duration <- base_duration_of base_routes ridx live_duration ;;
  segments <- route_segments live_route ;;
  delay_s <- delay_of live_duration base_duration ;;
  base_s <- PyNum.round base_duration ;;
  traffic_s <- PyNum.round live_duration ;;
  ret (PDict [ ("id", PInt ridx);
               ("distance_m", distance_m);
               ("durations", PDict [ ("base_s", PInt base_s);
                                     ("traffic_s", PInt traffic_s);
                                     ("delay_s", PInt delay_s) ]);
               ("segments", PList segments) ]).

(** The outer loop (lines 88-129). *)
Definition routes_payload (base_routes live_routes : pyval) : result (list pyval) :=
  items <- Py.iter live_routes ;;
  for_each (fun p => route_payload base_routes (fst p) (snd p))
           (Py.enumerate items).

Definition error_body (msg : string) : pyval := PDict [("error", PStr msg)].

(** [jsonify({"error": msg}), code]. *)
Definition error_response (code : Z) (msg : string) : flask_response :=
  {| status := code; body := error_body msg |}.

(** The object handed to [jsonify] on lines 131-135, with the default
    status; its serialization is not modelled. *)
Definition ok_response (start end_ : string) (lat1 lon1 lat2 lon2 : pyval)
  (payload : list pyval) : flask_response :=
  {| status := 200;
     body := PDict
       [ ("start", PDict [("name", PStr start); ("lat", lat1); ("lon", lon1)]);
         ("end", PDict [("name", PStr end_); ("lat", lat2); ("lon", lon2)]);
         ("routes", PList payload) ] |}.

Section App.

(** [os.environ] when the module is loaded. *)
Variable environ : list (string * string).

(** [os.getenv(k, default)]. *)
Definition getenv (k default : string) : string :=
  args_get environ k default.

Definition MAPBOX_TOKEN : string :=
  getenv "MAPBOX_TOKEN"
    "pk.eyJ1IjoiYWdhcndhbGdhdXJhbmciLCJhIjoiY21lbDM0c2hxMDczdDJqczU0djJ0ZW81aSJ9.P6BVtjJ4lfXFnBxZ7vV2DQ".

(** Lines 22-25 of [geocode_place]: the pair [(lat, lon)] of the first
    feature of the decoded reply, or [(None, None)]. *)
Definition first_coordinates (data : pyval) : result (pyval * pyval) :=
  features <- Py.get data "features" PNone ;;
  if Py.truthy features then
    fs <- Py.getitem_str data "features" ;;
    f0 <- Py.getitem_int fs 0 ;;
    g <- Py.getitem_str f0 "geometry" ;;
    c <- Py.getitem_str g "coordinates" ;;
    '(lon, lat) <- Py.unpack2 c ;;
    ret (lat, lon)
  else ret (PNone, PNone).

(** Lines 13-18: the URL and the parameters of a geocoding request. *)
Definition geocode_url (place : string) : list fpart :=
  [Lit "https://api.mapbox.com/geocoding/v5/mapbox.places/";
   Fmt (PStr place); Lit ".json"].

Definition geocode_params : list (string * pyval) :=
  [ ("access_token", PStr MAPBOX_TOKEN);
    ("limit", PInt 1);
    ("country", PStr "IN") ].

(** app4.py, lines 11-25. *)
Definition geocode_place (place : string) : io (pyval * pyval) :=
  r <- Requests.get (geocode_url place) geocode_params REQUEST_TIMEOUT ;;
  lift (Requests.raise_for_status r) ;;
  data <- lift (Requests.json r) ;;
  lift (first_coordinates data).

(** [str(b).lower()] for a bool. *)
Definition bool_lower (b : bool) : string := if b then "true" else "false".

(** Lines 29-38: the URL and the parameters of a directions request. *)
Definition directions_url (lat1 lon1 lat2 lon2 : pyval) (profile : string)
  : list fpart :=
  [Lit "https://api.mapbox.com/directions/v5/mapbox/";
   Fmt (PStr profile); Lit "/"; Fmt lon1; Lit ","; Fmt lat1;
   Lit ";"; Fmt lon2; Lit ","; Fmt lat2].

Definition directions_params (annotations : option string) (alternatives : bool)
  : list (string * pyval) :=
  let ps := [ ("access_token", PStr MAPBOX_TOKEN);
              ("geometries", PStr "geojson");
              ("overview", PStr "full");
              ("", PStr "false");
              ("alternatives", PStr (bool_lower alternatives)) ] in
  match annotations with
  | Some a => if PyStr.is_empty a then ps
              else (ps ++ [("annotations", PStr a)])%list
  | None => ps
  end.

(** app4.py, lines 27-41: the decoded body of the reply. *)
Definition mapbox_directions (lat1 lon1 lat2 lon2 : pyval) (profile : string)
  (annotations : option string) (alternatives : bool) : io pyval :=
  r <- Requests.get (directions_url lat1 lon1 lat2 lon2 profile)
                    (directions_params annotations alternatives)
                    REQUEST_TIMEOUT ;;
  lift (Requests.raise_for_status r) ;;
  lift (Requests.json r).

(** The requests the two helpers send. *)
Definition geocode_request (place : string) : http_request :=
  {| url := geocode_url place;
     params := geocode_params;
     timeout := REQUEST_TIMEOUT |}.

Definition directions_request (lat1 lon1 lat2 lon2 : pyval) (profile : string)
  (annotations : option string) (alternatives : bool) : http_request :=
  {| url := directions_url lat1 lon1 lat2 lon2 profile;
     params := directions_params annotations alternatives;
     timeout := REQUEST_TIMEOUT |}.

(** The annotations asked of the live query (line 82). *)
Definition live_annotations : string :=
  "congestion,congestion_numeric,speed,duration,distance".

(** app4.py, lines 59-135; the two [print] calls write to the log and are
    left out. *)
Definition api_route (args : list (string * string)) : io flask_response :=
  let start := PyStr.strip (args_get args "start" "") in
  let end_ := PyStr.strip (args_get args "end" "") in
  if PyStr.is_empty start || PyStr.is_empty end_ then
    ret (error_response 400 "start and end are required")
  else
    '(lat1, lon1) <- geocode_place start ;;
    '(lat2, lon2) <- geocode_place end_ ;;
    if Py.is_none lat1 || Py.is_none lat2 then
      ret (error_response 400 "Could not geocode one or both places.")
    else
      base_json <- mapbox_directions lat1 lon1 lat2 lon2 "driving" None true ;;
      base_routes <- lift (Py.get base_json "routes" (PList [])) ;;
      if negb (Py.truthy base_routes) then
        ret (error_response 404 "No base routes found")
      else
        let ann := live_annotations in
        live_json <- mapbox_directions lat1 lon1 lat2 lon2 "driving-traffic"
                                       (Some ann) true ;;
        live_routes <- lift (Py.get live_json "routes" (PList [])) ;;
        if negb (Py.truthy live_routes) then
          ret (error_response 404 "No live traffic routes found")
        else
          payload <- lift (routes_payload base_routes live_routes) ;;
          ret (ok_response start end_ lat1 lon1 lat2 lon2 payload).

End App.

(** ** Reading an execution *)

(** What [requests.get], [raise_for_status] and [json] make of a reply. *)
Definition decoded (r : http_reply) : result pyval :=
  match r with
  | NoReply => Exn RequestException
  | Reply c b =>
      let resp := {| status_code := c; json_body := b |} in
      Requests.raise_for_status resp ;; Requests.json resp
  end.

(** The outcome of [geocode_place] on a reply. *)
Definition geocoded (r : http_reply) : result (pyval * pyval) :=
  data <- decoded r ;; first_coordinates data.

(** The route collection the handler reads off the reply to a directions
    query: [json.get("routes", [])]. *)
Definition reply_routes (r : http_reply) : result pyval :=
  data <- decoded r ;; Py.get data "routes" (PList []).

(** A field of a dict of the payload. *)
Definition field (v : pyval) (k : string) : option pyval :=
  match v with
  | PDict d => Py.lookup k d
  | _ => None
  end.

(** The [routes] array of a response. *)
Definition response_routes (resp : flask_response) : option (list pyval) :=
  match field (body resp) "routes" with
  | Some (PList l) => Some l
  | _ => None
  end.

(** A field of the [durations] record of a route of the payload. *)
Definition duration_field (route : pyval) (k : string) : option pyval :=
  match field route "durations" with
  | Some d => field d k
  | None => None
  end.

(** The network that gives the replies of a list, in order, and none
    afterwards. *)
Definition replies (l : list http_reply) (n : nat) : http_reply :=
  nth n l NoReply.

(** The outcome of a computation started on a fresh network. *)
Definition outcome {A} (p : io A) (net : nat -> http_reply) : result A :=
  snd (run p net 0).

(** The requests it sends. *)
Definition sent {A} (p : io A) (net : nat -> http_reply) : list http_request :=
  fst (run p net 0).

(** ** Sample replies *)

Module Sample.

(** The float a decimal literal [n / d] denotes. *)
Definition dec (n d : positive) : pyval := PFloat (PyFloat.of_ratio false n d).

(** A geocoding reply with one feature at [(lon, lat)]. *)
Definition place (lon lat : pyval) : http_reply :=
  Reply 200 (Some (PDict
    [("features", PList
       [PDict [("geometry", PDict [("coordinates", PList [lon; lat])])]])])).

(** A directions reply with the given routes. *)
Definition routes (l : list pyval) : http_reply :=
  Reply 200 (Some (PDict [("routes", PList l); ("code", PStr "Ok")])).

Definition point (lon lat : pyval) : pyval := PList [lon; lat].

(** A route with three vertices and annotations for its first segment
    only. *)
Definition live_route (duration : pyval) : pyval :=
  PDict
    [ ("distance", dec 12005 10);
      ("duration", duration);
      ("geometry", PDict [("coordinates",
         PList [ point (dec 771 10) (dec 286 10);
                 point (dec 775 10) (dec 280 10);
                 point (dec 780 10) (dec 272 10) ])]);
      ("legs", PList [PDict [("annotation", PDict
         [ ("congestion", PList [PStr "heavy"]);
           ("speed", PList [dec 1234 100]);
           ("duration", PList [dec 405 10]) ])]]) ].

Definition base_route (duration : pyval) : pyval :=
  PDict [("distance", dec 12005 10); ("duration", duration)].

Definition delhi : http_reply := place (dec 771 10) (dec 286 10).
Definition agra : http_reply := place (dec 780 10) (dec 272 10).

Definition args : list (string * string) :=
  [("start", " Delhi"); ("end", "Agra ")].

(** One baseline route, and three live routes: a full one, one without
    geometry, and one that is an empty object. *)
Definition net : nat -> http_reply :=
  replies
    [ delhi; agra;
      routes [base_route (dec 15 10)];
      routes [ live_route (dec 25 10);
               PDict [("distance", PInt 900); ("duration", dec 725 100)];
               PDict [] ] ].

(** The response to [args] on [net]. *)
Definition response : flask_response :=
  Eval vm_compute in
    match outcome (api_route [] args) net with
    | Ok r => r
    | Exn _ => error_response 500 ""
    end.



(** Replies without baseline routes, and without live routes. *)
Definition net_no_base : nat -> http_reply :=
  replies [delhi; agra; routes []].

Definition net_no_live : nat -> http_reply :=
  replies [delhi; agra; routes [base_route (dec 15 10)];
           Reply 200 (Some (PDict [("code", PStr "NoRoute")]))].

(** A geocoding reply whose only feature has null coordinates. *)
Definition null_island : http_reply := place PNone PNone.

(** A geocoding reply without features. *)
Definition nowhere : http_reply :=
  Reply 200 (Some (PDict [("type", PStr "FeatureCollection");
                          ("features", PList [])])).

End Sample.

(** ** Further notions *)

(** A number [round] accepts: an int, a bool, or a float that is neither
    NaN nor infinite. *)
Definition finite_number (v : pyval) : bool :=
  match PyNum.as_num v with
  | Some (PyNum.NInt _) => true
  | Some (PyNum.NFloat (S754_zero _)) => true
  | Some (PyNum.NFloat (S754_finite _ _ _)) => true
  | _ => false
  end.

(** More sample values: a route whose legs carry three annotation sets, a
    position with an altitude, a baseline route without duration. *)
Module Sample2.

Definition leg (congestion : string) : pyval :=
  PDict [("annotation", PDict [("congestion", PList [PStr congestion])])].

Definition two_points : pyval :=
  PList [ Sample.point (Sample.dec 771 10) (Sample.dec 286 10);
          Sample.point (Sample.dec 780 10) (Sample.dec 272 10) ].

Definition route_with_legs (legs : list pyval) : list (string * pyval) :=
  [ ("duration", PInt 90);
    ("geometry", PDict [("coordinates", two_points)]);
    ("legs", PList legs) ].

Definition route_without_legs : list (string * pyval) :=
  [ ("duration", PInt 90);
    ("geometry", PDict [("coordinates", two_points)]) ].

Definition payload_without_legs : pyval :=
  Eval vm_compute in
    match route_payload (PList []) 0 (PDict route_without_legs) with
    | Ok r => r
    | Exn _ => PNone
    end.

End Sample2.

(** ** The primitives on sample values *)

Example lit_3_6_is_the_nearest_float :
  PyFloat.of_ratio false 36 10 = PyFloat.lit_3_6.
Proof. reflexivity. Qed.

Example round_ties_to_even :
  PyNum.round (Sample.dec 5 10) = Ok 0 /\
  PyNum.round (Sample.dec 15 10) = Ok 2 /\
  PyNum.round (Sample.dec 25 10) = Ok 2 /\
  PyNum.round (Sample.dec 725 100) = Ok 7 /\
  PyNum.round (PBool true) = Ok 1 /\
  PyNum.round (PFloat S754_nan) = Exn ValueError /\
  PyNum.round (PFloat (S754_infinity false)) = Exn OverflowError /\
  PyNum.round (PStr "90") = Exn TypeError.
Proof. repeat split. Qed.

Example speed_in_kmh :
  speed_kmh_of (Sample.dec 1234 100) = Ok (Sample.dec 444 10) /\
  speed_kmh_of (PInt 10) = Ok (Sample.dec 36 1) /\
  speed_kmh_of (PBool true) = Ok (Sample.dec 36 10) /\
  speed_kmh_of (PStr "12.34") = Ok PNone /\
  speed_kmh_of PNone = Ok PNone /\
  speed_kmh_of (PInt (2 ^ 1024)) = Exn OverflowError.
Proof. repeat split. Qed.

Example strip_keeps_inner_spaces :
  PyStr.strip "  New Delhi " = "New Delhi" /\ PyStr.strip "   " = "".
Proof. split; reflexivity. Qed.

Example sample_response_is_ok :
  run (api_route [] Sample.args) Sample.net 0
  = ([ geocode_request [] "Delhi"; geocode_request [] "Agra";
       directions_request [] (Sample.dec 286 10) (Sample.dec 771 10)
                          (Sample.dec 272 10) (Sample.dec 780 10)
                          "driving" None true;
       directions_request [] (Sample.dec 286 10) (Sample.dec 771 10)
                          (Sample.dec 272 10) (Sample.dec 780 10)
                          "driving-traffic" (Some live_annotations) true ],
     Ok Sample.response).
Proof. vm_compute. reflexivity. Qed.

(** ** Executions of the handler *)

Lemma run_bind {A B} (m : io A) (f : A -> io B) net n :
  run (bind m f) net n =
  match run m net n with
  | (tr, Ok a) =>
      let '(tr', r) := run (f a) net (n + List.length tr) in ((tr ++ tr')%list, r)
  | (tr, Exn e) => (tr, Exn e)
  end.
Proof.
  cbn [bind Monad_io]. revert n.
  induction m as [a | e | rq k IH]; intros n; cbn [io_bind run].
  - rewrite Nat.add_0_r. destruct (run (f a) net n); reflexivity.
  - reflexivity.
  - rewrite IH. destruct (run (k (net n)) net (S n)) as [tr [a | e]]; cbn.
    + rewrite Nat.add_succ_r.
      destruct (run (f a) net (S (n + List.length tr))); reflexivity.
    + reflexivity.
Qed.

Lemma run_lift {A} (r : result A) net n : run (lift r) net n = ([], r).
Proof. destruct r; reflexivity. Qed.

(** One GET, then the decoding of its reply. *)
Lemma run_geocode_place env place net n :
  run (geocode_place env place) net n
  = ([geocode_request env place], geocoded (net n)).
Proof.
  unfold geocode_place, geocoded, decoded, Requests.get.
  cbn [bind Monad_io io_bind run].
  destruct (net n) as [| c b]; cbn [io_bind run]; [reflexivity |].
  unfold Requests.raise_for_status, Requests.json; cbn [status_code json_body].
  destruct ((400 <=? c) && (c <? 600));
    cbn [io_bind run lift bind Monad_result]; [reflexivity |].
  destruct b as [v |]; cbn [io_bind run lift]; [| reflexivity].
  destruct (first_coordinates v); reflexivity.
Qed.

Lemma run_mapbox_directions env lat1 lon1 lat2 lon2 profile ann alt net n :
  run (mapbox_directions env lat1 lon1 lat2 lon2 profile ann alt) net n
  = ([directions_request env lat1 lon1 lat2 lon2 profile ann alt],
     decoded (net n)).
Proof.
  unfold mapbox_directions, decoded, Requests.get.
  cbn [bind Monad_io io_bind run].
  destruct (net n) as [| c b]; cbn [io_bind run]; [reflexivity |].
  unfold Requests.raise_for_status, Requests.json; cbn [status_code json_body].
  destruct ((400 <=? c) && (c <? 600)); cbn; [reflexivity |].
  destruct b as [v |]; reflexivity.
Qed.

(** The handler as a function of the replies it gets: what it sends and
    how it ends. *)
Lemma run_api_route env args net :
  run (api_route env args) net 0 =
  let start := PyStr.strip (args_get args "start" "") in
  let end_ := PyStr.strip (args_get args "end" "") in
  let rq0 := geocode_request env start in
  let rq1 := geocode_request env end_ in
  if PyStr.is_empty start || PyStr.is_empty end_
  then ([], Ok (error_response 400 "start and end are required"))
  else
    match geocoded (net 0%nat) with
    | Exn e => ([rq0], Exn e)
    | Ok (lat1, lon1) =>
    match geocoded (net 1%nat) with
    | Exn e => ([rq0; rq1], Exn e)
    | Ok (lat2, lon2) =>
    let rq2 := directions_request env lat1 lon1 lat2 lon2 "driving" None true in
    let rq3 := directions_request env lat1 lon1 lat2 lon2 "driving-traffic"
                                  (Some live_annotations) true in
    if Py.is_none lat1 || Py.is_none lat2
    then ([rq0; rq1],
          Ok (error_response 400 "Could not geocode one or both places."))
    else
      match reply_routes (net 2%nat) with
      | Exn e => ([rq0; rq1; rq2], Exn e)
      | Ok base_routes =>
      if negb (Py.truthy base_routes)
      then ([rq0; rq1; rq2], Ok (error_response 404 "No base routes found"))
      else
        match reply_routes (net 3%nat) with
        | Exn e => ([rq0; rq1; rq2; rq3], Exn e)
        | Ok live_routes =>
        if negb (Py.truthy live_routes)
        then ([rq0; rq1; rq2; rq3],
              Ok (error_response 404 "No live traffic routes found"))
        else
          ([rq0; rq1; rq2; rq3],
           payload <- routes_payload base_routes live_routes ;;
           ret (ok_response start end_ lat1 lon1 lat2 lon2 payload))
        end
      end
    end
    end.
Proof.
  unfold api_route. cbv zeta.
  destruct (PyStr.is_empty _ || PyStr.is_empty _); [reflexivity |].
  rewrite run_bind, run_geocode_place.
  destruct (geocoded (net 0%nat)) as [[lat1 lon1] | e]; [| reflexivity].
  cbn [List.length Nat.add].
  rewrite run_bind, run_geocode_place.
  destruct (geocoded (net 1%nat)) as [[lat2 lon2] | e]; [| reflexivity].
  cbn [List.length Nat.add].
  destruct (Py.is_none lat1 || Py.is_none lat2); [reflexivity |].
  rewrite run_bind, run_mapbox_directions.
  unfold reply_routes.
  destruct (decoded (net 2%nat)) as [base_json | e]; [| reflexivity].
  cbn [bind Monad_result List.length Nat.add].
  rewrite run_bind, run_lift.
  destruct (Py.get base_json "routes" (PList [])) as [base_routes | e];
    [| reflexivity].
  cbn [List.length Nat.add].
  destruct (negb (Py.truthy base_routes)); [reflexivity |].
  rewrite run_bind, run_mapbox_directions.
  destruct (decoded (net 3%nat)) as [live_json | e]; [| reflexivity].
  cbn [bind Monad_result List.length Nat.add].
  rewrite run_bind, run_lift.
  destruct (Py.get live_json "routes" (PList [])) as [live_routes | e];
    [| reflexivity].
  cbn [List.length Nat.add].
  destruct (negb (Py.truthy live_routes)); [reflexivity |].
  rewrite run_bind, run_lift.
  destruct (routes_payload base_routes live_routes); reflexivity.
Qed.

(** How the handler ends. *)
Lemma outcome_api_route env args net :
  outcome (api_route env args) net =
  let start := PyStr.strip (args_get args "start" "") in
  let end_ := PyStr.strip (args_get args "end" "") in
  if PyStr.is_empty start || PyStr.is_empty end_
  then Ok (error_response 400 "start and end are required")
  else
    '(lat1, lon1) <- geocoded (net 0%nat) ;;
    '(lat2, lon2) <- geocoded (net 1%nat) ;;
    if Py.is_none lat1 || Py.is_none lat2
    then Ok (error_response 400 "Could not geocode one or both places.")
    else
      base_routes <- reply_routes (net 2%nat) ;;
      if negb (Py.truthy base_routes)
      then Ok (error_response 404 "No base routes found")
      else
        live_routes <- reply_routes (net 3%nat) ;;
        if negb (Py.truthy live_routes)
        then Ok (error_response 404 "No live traffic routes found")
        else
          payload <- routes_payload base_routes live_routes ;;
          Ok (ok_response start end_ lat1 lon1 lat2 lon2 payload).
Proof.
  unfold outcome. rewrite run_api_route. cbv zeta.
  destruct (PyStr.is_empty _ || PyStr.is_empty _); [reflexivity |].
  destruct (geocoded (net 0%nat)) as [[lat1 lon1] | e]; [| reflexivity].
  destruct (geocoded (net 1%nat)) as [[lat2 lon2] | e]; [| reflexivity].
  cbn [bind Monad_result].
  destruct (Py.is_none lat1 || Py.is_none lat2); [reflexivity |].
  destruct (reply_routes (net 2%nat)) as [base_routes | e]; [| reflexivity].
  cbn [bind Monad_result].
  destruct (negb (Py.truthy base_routes)); [reflexivity |].
  destruct (reply_routes (net 3%nat)) as [live_routes | e]; [| reflexivity].
  cbn [bind Monad_result].
  destruct (negb (Py.truthy live_routes)); reflexivity.
Qed.

(** A 200 response comes after four requests: the two places, the
    baseline routes, the live routes. *)
Lemma sent_on_success env args net resp :
  outcome (api_route env args) net = Ok resp ->
  status resp = 200 ->
  exists lat1 lon1 lat2 lon2,
    geocoded (net 0%nat) = Ok (lat1, lon1) /\
    geocoded (net 1%nat) = Ok (lat2, lon2) /\
    sent (api_route env args) net
    = [ geocode_request env (PyStr.strip (args_get args "start" ""));
        geocode_request env (PyStr.strip (args_get args "end" ""));
        directions_request env lat1 lon1 lat2 lon2 "driving" None true;
        directions_request env lat1 lon1 lat2 lon2 "driving-traffic"
                           (Some live_annotations) true ].
Proof.
  unfold outcome, sent. rewrite run_api_route. cbv zeta.
  destruct (PyStr.is_empty _ || PyStr.is_empty _).
  { cbn. intros H Hs. inversion H; subst. discriminate Hs. }
  destruct (geocoded (net 0%nat)) as [[lat1 lon1] | e]; [| discriminate].
  destruct (geocoded (net 1%nat)) as [[lat2 lon2] | e]; [| discriminate].
  destruct (Py.is_none lat1 || Py.is_none lat2).
  { cbn. intros H Hs. inversion H; subst. discriminate Hs. }
  destruct (reply_routes (net 2%nat)) as [base_routes | e]; [| discriminate].
  destruct (negb (Py.truthy base_routes)).
  { cbn. intros H Hs. inversion H; subst. discriminate Hs. }
  destruct (reply_routes (net 3%nat)) as [live_routes | e]; [| discriminate].
  destruct (negb (Py.truthy live_routes)).
  { cbn. intros H Hs. inversion H; subst. discriminate Hs. }
  intros _ _. exists lat1, lon1, lat2, lon2. repeat split.
Qed.

(** ** Steps that may raise *)

Lemma bind_ok {A B} (m : result A) (f : A -> result B) (b : B) :
  bind m f = Ok b <-> exists a, m = Ok a /\ f a = Ok b.
Proof.
  destruct m as [a | e]; cbn; split.
  - intros H. exists a. split; [reflexivity | exact H].
  - intros (a' & Ha & H). inversion Ha. subst. exact H.
  - discriminate.
  - intros (a' & Ha & _). discriminate.
Qed.

(** Splits a successful sequence of steps into its steps. *)
Ltac ok_steps H :=
  repeat
    match type of H with
    | bind _ _ = Ok _ =>
        let a := fresh "x" in
        let Ha := fresh "Hx" in
        apply bind_ok in H; destruct H as (a & Ha & H)
    | match ?m with Ok _ => _ | Exn _ => _ end = Ok _ =>
        let a := fresh "x" in
        let Ha := fresh "Hx" in
        destruct m as [a |] eqn:Ha; [| discriminate H]
    | (let '(_, _) := ?p in _) = Ok _ => destruct p
    | ret _ = Ok _ => cbn [ret Monad_result] in H
    end.

(** ** Loops *)

Lemma for_each_ok {A B} (f : A -> result B) (l : list A) (ys : list B) :
  for_each f l = Ok ys <-> Forall2 (fun x y => f x = Ok y) l ys.
Proof.
  revert ys. induction l as [| x l IH]; intros ys; cbn [for_each].
  - split.
    + intros H. inversion H. constructor.
    + intros H. inversion H. reflexivity.
  - split.
    + intros H. ok_steps H. inversion H; subst.
      constructor; [assumption | apply IH; assumption].
    + intros H. inversion H as [| ? y ? ys' Hxy Hrest]; subst.
      apply bind_ok. exists y. split; [assumption |].
      apply bind_ok. exists ys'. split; [apply IH; assumption | reflexivity].
Qed.

Lemma Forall2_nth {A B} (R : A -> B -> Prop) l l' :
  Forall2 R l l' ->
  List.length l = List.length l' /\
  forall i y, nth_error l' i = Some y ->
              exists x, nth_error l i = Some x /\ R x y.
Proof.
  induction 1 as [| x y l l' Hxy _ [IHlen IH]].
  - split; [reflexivity |]. intros [| i] y; discriminate.
  - split; [cbn; congruence |].
    intros [| i] z Hz; cbn in *.
    + inversion Hz; subst. exists x. split; [reflexivity | assumption].
    + apply IH. assumption.
Qed.

Lemma range_length n : List.length (Py.range n) = Z.to_nat n.
Proof. unfold Py.range. rewrite length_map, length_seq. reflexivity. Qed.

Lemma range_nth n i x :
  nth_error (Py.range n) i = Some x -> x = Z.of_nat i /\ (i < Z.to_nat n)%nat.
Proof.
  unfold Py.range. intros H.
  assert (Hi : (i < Z.to_nat n)%nat).
  { rewrite <- (range_length n). apply nth_error_Some. unfold Py.range. congruence. }
  rewrite nth_error_map, nth_error_seq in H.
  destruct (Nat.ltb_spec i (Z.to_nat n)); [| lia].
  cbn in H. inversion H. split; [reflexivity | assumption].
Qed.

Lemma enumerate_length {A} (l : list A) :
  List.length (Py.enumerate l) = List.length l.
Proof.
  unfold Py.enumerate. rewrite length_combine, range_length. lia.
Qed.

Lemma combine_seq_nth {A} (l : list A) s i k x :
  nth_error (combine (map Z.of_nat (seq s (List.length l))) l) i = Some (k, x) ->
  k = Z.of_nat (s + i) /\ nth_error l i = Some x.
Proof.
  revert s i. induction l as [| y l IH]; intros s i H; cbn in H.
  - destruct i; discriminate.
  - destruct i as [| i]; cbn in H.
    + inversion H; subst. rewrite Nat.add_0_r. split; reflexivity.
    + apply IH in H. destruct H as [-> H]. split; [f_equal; lia | exact H].
Qed.

Lemma enumerate_nth {A} (l : list A) i p :
  nth_error (Py.enumerate l) i = Some p ->
  fst p = Z.of_nat i /\ nth_error l i = Some (snd p).
Proof.
  unfold Py.enumerate, Py.range. rewrite Nat2Z.id. destruct p as [k x].
  intros H. apply combine_seq_nth in H. exact H.
Qed.

(** ** The assembled routes *)

Lemma chars_nonempty s :
  negb (String.eqb s "") = true -> exists c l, Py.chars s = PStr c :: l.
Proof.
  destruct s as [| a s]; cbn; [discriminate |]. intros _. eauto.
Qed.

Lemma enumerate_cons {A} (x : A) l :
  exists rest, Py.enumerate (x :: l) = (0, x) :: rest.
Proof.
  unfold Py.enumerate, Py.range. rewrite Nat2Z.id. cbn. eauto.
Qed.

(** The first item of a collection that is not a route ends the loop. *)
Lemma for_each_first_str base s l :
  for_each (fun p => route_payload base (fst p) (snd p))
           (Py.enumerate (PStr s :: l)) = Exn AttributeError.
Proof.
  destruct (enumerate_cons (PStr s) l) as [rest ->]. reflexivity.
Qed.

(** A truthy collection of live routes that is assembled is a list, and
    the payload has one record per route, assembled at its position. *)
Lemma routes_payload_ok base live payload :
  Py.truthy live = true ->
  routes_payload base live = Ok payload ->
  exists items,
    live = PList items /\
    List.length payload = List.length items /\
    forall i route,
      nth_error payload i = Some route ->
      exists lr, nth_error items i = Some lr /\
                 route_payload base (Z.of_nat i) lr = Ok route.
Proof.
  intros Ht H. unfold routes_payload in H.
  destruct live as [| b | z | f | s | items | d]; try discriminate H.
  - (* a str: its first character is not a route *)
    cbn in Ht. destruct (chars_nonempty s Ht) as (c & l & Hc).
    cbn [Py.iter bind Monad_result] in H. rewrite Hc in H.
    rewrite for_each_first_str in H. discriminate.
  - (* a list *)
    cbn [Py.iter bind Monad_result] in H.
    apply for_each_ok, Forall2_nth in H. destruct H as [Hlen Hnth].
    rewrite enumerate_length in Hlen.
    exists items. split; [reflexivity |]. split; [congruence |].
    intros i route Hr. destruct (Hnth i route Hr) as ([k lr] & Hk & Hp).
    apply enumerate_nth in Hk. cbn [fst snd] in *. destruct Hk as [-> Hk].
    exists lr. split; assumption.
  - (* a dict: its first key is not a route *)
    destruct d as [| [k v] d]; [discriminate Ht |].
    cbn [Py.iter bind Monad_result map fst] in H.
    rewrite for_each_first_str in H. discriminate.
Qed.

(** The baseline collection of an assembled first route is a list. *)
Lemma base_duration_of_list base ld b :
  Py.truthy base = true ->
  base_duration_of base 0 ld = Ok b ->
  exists bl, base = PList bl.
Proof.
  intros Ht H. unfold base_duration_of in H.
  destruct base as [| x | z | f | s | bl | d]; try discriminate H.
  - cbn in Ht. destruct s as [| c s]; [discriminate Ht |]. cbn in H. discriminate.
  - eauto.
  - destruct d as [| kv d]; [discriminate Ht |]. cbn in H. discriminate.
Qed.

(** The steps of an assembled route. *)
Lemma route_payload_ok base ridx lr route :
  route_payload base ridx lr = Ok route ->
  exists distance_m live_duration base_duration segments delay_s base_s traffic_s,
    Py.get lr "distance" (PInt 0) = Ok distance_m /\
    Py.get lr "duration" (PInt 0) = Ok live_duration /\
    base_duration_of base ridx live_duration = Ok base_duration /\
    route_segments lr = Ok segments /\
    delay_of live_duration base_duration = Ok delay_s /\
    PyNum.round base_duration = Ok base_s /\
    PyNum.round live_duration = Ok traffic_s /\
    route = PDict [ ("id", PInt ridx);
                    ("distance_m", distance_m);
                    ("durations", PDict [ ("base_s", PInt base_s);
                                          ("traffic_s", PInt traffic_s);
                                          ("delay_s", PInt delay_s) ]);
                    ("segments", PList segments) ].
Proof.
  intros H. unfold route_payload in H. ok_steps H. inversion H.
  repeat eexists; eassumption.
Qed.

(** Every 200 response comes from a list of baseline routes and a list of
    live routes, and holds one record per live route. *)
Lemma success_inv env args net resp :
  outcome (api_route env args) net = Ok resp ->
  status resp = 200 ->
  exists bl live payload,
    reply_routes (net 2%nat) = Ok (PList bl) /\
    reply_routes (net 3%nat) = Ok (PList live) /\
    response_routes resp = Some payload /\
    List.length payload = List.length live /\
    live <> [] /\
    forall i route,
      nth_error payload i = Some route ->
      exists lr, nth_error live i = Some lr /\
                 route_payload (PList bl) (Z.of_nat i) lr = Ok route.
Proof.
  intros H Hs. rewrite outcome_api_route in H. cbv zeta in H.
  destruct (PyStr.is_empty _ || PyStr.is_empty _).
  { inversion H; subst. discriminate Hs. }
  destruct (geocoded (net 0%nat)) as [[lat1 lon1] | e]; [| discriminate H].
  destruct (geocoded (net 1%nat)) as [[lat2 lon2] | e]; [| discriminate H].
  cbn [bind Monad_result] in H.
  destruct (Py.is_none lat1 || Py.is_none lat2).
  { inversion H; subst. discriminate Hs. }
  destruct (reply_routes (net 2%nat)) as [base | e]; [| discriminate H].
  cbn [bind Monad_result] in H.
  destruct (Py.truthy base) eqn:Hb; cbn [negb] in H.
  2:{ inversion H; subst. discriminate Hs. }
  destruct (reply_routes (net 3%nat)) as [live | e]; [| discriminate H].
  cbn [bind Monad_result] in H.
  destruct (Py.truthy live) eqn:Hl; cbn [negb] in H.
  2:{ inversion H; subst. discriminate Hs. }
  destruct (routes_payload base live) as [payload | e] eqn:Hp; [| discriminate H].
  cbn [bind Monad_result] in H. inversion H; subst resp. clear H Hs.
  destruct (routes_payload_ok _ _ _ Hl Hp) as (items & -> & Hlen & Hnth).
  assert (Hne : items <> []) by (destruct items; [discriminate Hl | discriminate]).
  assert (exists bl, base = PList bl) as [bl ->].
  { destruct items as [| l0 items]; [congruence |].
    destruct payload as [| r0 payload]; [discriminate Hlen |].
    destruct (Hnth 0%nat r0 eq_refl) as (lr & _ & Hr).
    apply route_payload_ok in Hr.
    destruct Hr as (? & ld & bd & ? & ? & ? & ? & _ & _ & Hbd & _).
    eapply base_duration_of_list; eassumption. }
  exists bl, items, payload. repeat split; try assumption; reflexivity.
Qed.

(** ** Segments *)

(** The steps of a segment that is built. *)
Lemma segment_ok coords congestions speeds seg_durations i seg :
  segment coords congestions speeds seg_durations i = Ok seg ->
  exists lon_a lat_a lon_b lat_b cong speed_ms dur_s color speed_kmh,
    vertex coords i = Ok (lon_a, lat_a) /\
    vertex coords (i + 1) = Ok (lon_b, lat_b) /\
    item_or_none congestions i = Ok cong /\
    item_or_none speeds i = Ok speed_ms /\
    item_or_none seg_durations i = Ok dur_s /\
    color_for_congestion cong = Ok color /\
    speed_kmh_of speed_ms = Ok speed_kmh /\
    seg = PDict [ ("coords", PList [PList [lat_a; lon_a]; PList [lat_b; lon_b]]);
                  ("congestion", cong);
                  ("color", PStr color);
                  ("speed_kmh", speed_kmh);
                  ("duration_s", dur_s) ].
Proof.
  intros H. unfold segment in H.
  apply bind_ok in H. destruct H as ([lon_a lat_a] & Ha & H).
  apply bind_ok in H. destruct H as ([lon_b lat_b] & Hb & H).
  ok_steps H. inversion H.
  repeat eexists; eassumption.
Qed.

(** The segments of a route: one per index of [range(len(coords) - 1)]. *)
Lemma route_segments_ok lr segments :
  route_segments lr = Ok segments ->
  exists ann congestions speeds seg_durations coords n,
    first_annotation lr = Ok ann /\
    annotation_array ann "congestion" = Ok congestions /\
    annotation_array ann "speed" = Ok speeds /\
    annotation_array ann "duration" = Ok seg_durations /\
    route_coords lr = Ok coords /\
    Py.len coords = Ok n /\
    List.length segments = Z.to_nat (n - 1) /\
    forall j seg,
      nth_error segments j = Some seg ->
      segment coords congestions speeds seg_durations (Z.of_nat j) = Ok seg.
Proof.
  intros H. unfold route_segments in H. ok_steps H.
  apply for_each_ok, Forall2_nth in H. destruct H as [Hlen Hnth].
  rewrite range_length in Hlen.
  do 6 eexists. repeat (split; [eassumption |]).
  split; [congruence |].
  intros j seg Hj. destruct (Hnth j seg Hj) as (k & Hk & Hs).
  apply range_nth in Hk. destruct Hk as [-> _]. exact Hs.
Qed.




(** ** Colors *)

(** C2, as amended: on every hashable congestion value (a str, a number,
    a bool, [None]) the color mapping returns, with the color of the table
    for the five listed strs and gray for [None] and for anything else, so
    always one of the five colors; on a list or a dict it raises
    [TypeError]. *)
Theorem color_for_congestion_hashable c :
  Py.hashable c = true ->
  exists col,
    color_for_congestion c = Ok col /\
    In col colors /\
    (c = PStr "low" -> col = "green") /\
    (c = PStr "moderate" -> col = "orange") /\
    (c = PStr "heavy" -> col = "red") /\
    (c = PStr "severe" -> col = "darkred") /\
    (c = PStr "unknown" -> col = "gray") /\
    (c = PNone -> col = "gray") /\
    (~ In c [PStr "low"; PStr "moderate"; PStr "heavy"; PStr "severe"] ->
     col = "gray").
Proof.
  intros Hh. unfold color_for_congestion, table_get. rewrite Hh.
  eexists. split; [reflexivity |].
  destruct c as [| b | z | f | s | l | d]; try discriminate Hh;
    try (cbn; intuition (discriminate || congruence)).
  cbn [table_lookup color_table key_eqb].
  destruct (String.eqb_spec s "low") as [-> | Hlow];
    [cbn; intuition (discriminate || congruence) |].
  destruct (String.eqb_spec s "moderate") as [-> | Hmod];
    [cbn; intuition (discriminate || congruence) |].
  destruct (String.eqb_spec s "heavy") as [-> | Hhvy];
    [cbn; intuition (discriminate || congruence) |].
  destruct (String.eqb_spec s "severe") as [-> | Hsev];
    [cbn; intuition (discriminate || congruence) |].
  destruct (String.eqb_spec s "unknown") as [-> | Hunk];
    cbn; intuition (discriminate || congruence).
Qed.

Lemma color_for_congestion_hashable_witness :
  exists col, color_for_congestion (PStr "heavy") = Ok col /\ In col colors.
Proof.
  destruct (color_for_congestion_hashable (PStr "heavy") eq_refl)
    as (col & H & Hin & _).
  exists col. split; assumption.
Defined.

(** C2, as stated, fails on a congestion entry that is a list: the lookup
    hashes its key and raises. *)
Lemma color_for_congestion_unhashable :
  color_for_congestion (PList []) = Exn TypeError.
Proof. reflexivity. Qed.

(** ** Durations *)

Lemma index_of_nat l i :
  Py.index l (Z.of_nat i)
  = match nth_error l i with Some x => Ok x | None => Exn IndexError end.
Proof.
  unfold Py.index.
  destruct (Z.leb_spec 0 (Z.of_nat i)); [| lia]. cbn [andb].
  destruct (Z.ltb_spec (Z.of_nat i) (Z.of_nat (List.length l))).
  - rewrite Nat2Z.id. reflexivity.
  - destruct (Z.ltb_spec (Z.of_nat i) 0); [lia |].
    rewrite andb_false_r.
    assert (nth_error l i = None) as -> by (apply nth_error_None; lia).
    reflexivity.
Qed.

(** Line 92, on a list of baseline routes: the paired route's duration,
    or the live duration beyond the end of the list. *)
Lemma base_duration_of_paired bl i ld base_route :
  nth_error bl i = Some base_route ->
  base_duration_of (PList bl) (Z.of_nat i) ld
  = Py.getitem_str base_route "duration".
Proof.
  intros H. unfold base_duration_of. cbn [Py.len bind Monad_result].
  assert (i < List.length bl)%nat by (apply nth_error_Some; congruence).
  destruct (Z.ltb_spec (Z.of_nat i) (Z.of_nat (List.length bl))); [| lia].
  cbn [Py.getitem_int]. rewrite index_of_nat, H. reflexivity.
Qed.


Lemma delay_of_ok ld bd delay_s :
  delay_of ld bd = Ok delay_s <->
  exists diff rounded,
    PyNum.sub ld bd = Ok diff /\ PyNum.round diff = Ok rounded /\
    delay_s = Z.max 0 rounded.
Proof.
  unfold delay_of. split.
  - intros H. ok_steps H. inversion H. eauto.
  - intros (diff & rounded & -> & Hr & ->). cbn. rewrite Hr. reflexivity.
Qed.

(** C3: in a 200 response the [delay_s] of every route is never negative,
    and for a route paired with a baseline route it is
    [max(0, round(live - base))] on the durations as the provider gave
    them, the live one being 0 when the route has none. *)
Theorem delay_is_clamped_difference env args net resp :
  outcome (api_route env args) net = Ok resp ->
  status resp = 200 ->
  exists bl live payload,
    reply_routes (net 2%nat) = Ok (PList bl) /\
    reply_routes (net 3%nat) = Ok (PList live) /\
    response_routes resp = Some payload /\
    forall i route,
      nth_error payload i = Some route ->
      exists live_route live_duration delay_s,
        nth_error live i = Some live_route /\
        Py.get live_route "duration" (PInt 0) = Ok live_duration /\
        duration_field route "delay_s" = Some (PInt delay_s) /\
        0 <= delay_s /\
        forall base_route,
          nth_error bl i = Some base_route ->
          exists base_duration diff rounded,
            Py.getitem_str base_route "duration" = Ok base_duration /\
            PyNum.sub live_duration base_duration = Ok diff /\
            PyNum.round diff = Ok rounded /\
            delay_s = Z.max 0 rounded.
Proof.
  intros H Hs.
  destruct (success_inv _ _ _ _ H Hs)
    as (bl & live & payload & Hbase & Hlive & Hresp & _ & _ & Hnth).
  exists bl, live, payload. repeat (split; [assumption |]).
  intros i route Hi. destruct (Hnth i route Hi) as (lr & Hlr & Hr).
  apply route_payload_ok in Hr.
  destruct Hr as (dm & ld & bd & segs & dl & bs & ts
                  & _ & Hld & Hbd & _ & Hdl & _ & _ & ->).
  apply delay_of_ok in Hdl. destruct Hdl as (diff & rounded & Hsub & Hround & ->).
  exists lr, ld, (Z.max 0 rounded).
  repeat (split; [assumption || reflexivity || lia |]).
  intros br Hbr. rewrite (base_duration_of_paired _ _ _ _ Hbr) in Hbd.
  exists bd, diff, rounded. repeat split; assumption.
Qed.

Lemma delay_is_clamped_difference_witness :
  exists bl live payload,
    reply_routes (Sample.net 2%nat) = Ok (PList bl) /\
    reply_routes (Sample.net 3%nat) = Ok (PList live) /\
    response_routes Sample.response = Some payload.
Proof.
  destruct (delay_is_clamped_difference [] Sample.args Sample.net Sample.response)
    as (bl & live & payload & Hbase & Hlive & Hresp & _).
  - vm_compute. reflexivity.
  - reflexivity.
  - exists bl, live, payload. repeat split; assumption.
Defined.





(** ** The fallback baseline *)

(** A finite float minus itself is zero. *)
Lemma sub_self_finite s m e :
  PyFloat.sub (S754_finite s m e) (S754_finite s m e) = S754_zero false.
Proof.
  unfold PyFloat.sub, SFsub. rewrite Z.sub_diag. reflexivity.
Qed.

(** Whatever [round] accepts, minus itself, rounds to 0. *)
Lemma round_sub_self v t :
  PyNum.round v = Ok t ->
  exists diff, PyNum.sub v v = Ok diff /\ PyNum.round diff = Ok 0.
Proof.
  unfold PyNum.round, PyNum.sub.
  destruct (PyNum.as_num v) as [[z | f] |]; [| | discriminate].
  - intros _. exists (PInt (z - z)). rewrite Z.sub_diag. split; reflexivity.
  - destruct f as [s | s | | s m e]; try discriminate; intros _.
    + exists (PFloat (S754_zero false)). split; [| reflexivity].
      destruct s; reflexivity.
    + exists (PFloat (S754_zero false)). split; [| reflexivity].
      cbn [PyNum.float_of bind ret Monad_result]. rewrite sub_self_finite.
      reflexivity.
Qed.

Lemma delay_of_self v t : PyNum.round v = Ok t -> delay_of v v = Ok 0.
Proof.
  intros H. apply delay_of_ok.
  destruct (round_sub_self v t H) as (diff & Hs & Hr).
  exists diff, 0. repeat split; assumption.
Qed.



Lemma enumerate_In {A} (l : list A) k x :
  In (k, x) (Py.enumerate l) ->
  exists i, k = Z.of_nat i /\ nth_error l i = Some x.
Proof.
  intros H. apply In_nth_error in H. destruct H as [i Hi].
  apply enumerate_nth in Hi. cbn in Hi. destruct Hi as [-> Hi]. eauto.
Qed.





(** ** Rejected requests *)

Lemma lstrip_empty s : PyStr.lstrip s = "" <-> PyStr.all_space s = true.
Proof.
  induction s as [| c s IH]; cbn.
  - tauto.
  - destruct (PyStr.isspace c); cbn.
    + exact IH.
    + split; discriminate.
Qed.

Lemma rstrip_empty s : PyStr.rstrip s = "" <-> PyStr.all_space s = true.
Proof.
  induction s as [| c s IH]; cbn.
  - tauto.
  - destruct (PyStr.rstrip s) as [| c' r].
    + destruct (PyStr.isspace c); cbn.
      * tauto.
      * split; discriminate.
    + split; [discriminate |].
      intros H. apply andb_true_iff in H. destruct H as [_ H].
      apply IH in H. discriminate.
Qed.

Lemma all_space_lstrip s :
  PyStr.all_space (PyStr.lstrip s) = true <-> PyStr.all_space s = true.
Proof.
  induction s as [| c s IH]; cbn.
  - tauto.
  - destruct (PyStr.isspace c) eqn:Hc; cbn.
    + exact IH.
    + rewrite Hc. cbn. tauto.
Qed.

(** A str strips to nothing exactly when it holds only whitespace. *)
Lemma strip_empty s : PyStr.strip s = "" <-> PyStr.all_space s = true.
Proof.
  unfold PyStr.strip. rewrite rstrip_empty. apply all_space_lstrip.
Qed.

Lemma is_empty_strip s :
  PyStr.is_empty (PyStr.strip s) = PyStr.all_space s.
Proof.
  unfold PyStr.is_empty.
  destruct (String.eqb_spec (PyStr.strip s) "") as [E | E];
    destruct (PyStr.all_space s) eqn:Ha; try reflexivity.
  - apply strip_empty in E. congruence.
  - apply strip_empty in Ha. congruence.
Qed.

(** C7: when the [start] or the [end] parameter is missing, empty or made
    of whitespace only, the handler answers 400 with the message
    "start and end are required", and sends no request at all. *)
Theorem blank_parameters_rejected env args :
  PyStr.all_space (args_get args "start" "") = true \/
  PyStr.all_space (args_get args "end" "") = true ->
  api_route env args = Ret (error_response 400 "start and end are required") /\
  forall net n,
    run (api_route env args) net n
    = ([], Ok (error_response 400 "start and end are required")).
Proof.
  intros H.
  assert (E : api_route env args
              = Ret (error_response 400 "start and end are required")).
  { unfold api_route. cbv zeta. rewrite !is_empty_strip.
    destruct H as [-> | ->]; [| rewrite orb_true_r]; reflexivity. }
  split; [exact E |]. intros net n. rewrite E. reflexivity.
Qed.

Lemma blank_parameters_rejected_witness :
  run (api_route [] [("start", ""); ("end", "Mumbai")]) Sample.net 0
  = ([], Ok (error_response 400 "start and end are required")).
Proof.
  apply (blank_parameters_rejected [] [("start", ""); ("end", "Mumbai")]).
  left. reflexivity.
Defined.

(** C6: once both places are geocoded, an empty (or missing) collection
    of baseline routes gives the 404 response "No base routes found", and,
    the baseline collection not being empty, an empty collection of live
    routes gives the 404 response "No live traffic routes found"; neither
    response has a [routes] array. *)
Theorem no_routes_not_found env args net lat1 lon1 lat2 lon2 :
  PyStr.all_space (args_get args "start" "") = false ->
  PyStr.all_space (args_get args "end" "") = false ->
  geocoded (net 0%nat) = Ok (lat1, lon1) ->
  geocoded (net 1%nat) = Ok (lat2, lon2) ->
  Py.is_none lat1 = false ->
  Py.is_none lat2 = false ->
  (forall base_routes,
      reply_routes (net 2%nat) = Ok base_routes ->
      Py.truthy base_routes = false ->
      outcome (api_route env args) net
      = Ok (error_response 404 "No base routes found")) /\
  (forall base_routes live_routes,
      reply_routes (net 2%nat) = Ok base_routes ->
      Py.truthy base_routes = true ->
      reply_routes (net 3%nat) = Ok live_routes ->
      Py.truthy live_routes = false ->
      outcome (api_route env args) net
      = Ok (error_response 404 "No live traffic routes found")) /\
  response_routes (error_response 404 "No base routes found") = None /\
  response_routes (error_response 404 "No live traffic routes found") = None.
Proof.
  intros Hs He H0 H1 Hn1 Hn2.
  assert (Hout := outcome_api_route env args net). cbv zeta in Hout.
  rewrite !is_empty_strip, Hs, He, H0, H1 in Hout.
  cbn [orb bind Monad_result] in Hout. rewrite Hn1, Hn2 in Hout.
  cbn [orb] in Hout.
  repeat split.
  - intros base Hb Hf. rewrite Hout, Hb. cbn [bind Monad_result].
    rewrite Hf. reflexivity.
  - intros base live Hb Ht Hl Hf. rewrite Hout, Hb. cbn [bind Monad_result].
    rewrite Ht, Hl. cbn [negb bind Monad_result]. rewrite Hf. reflexivity.
Qed.

Lemma no_routes_not_found_witness :
  outcome (api_route [] Sample.args) Sample.net_no_base
  = Ok (error_response 404 "No base routes found") /\
  outcome (api_route [] Sample.args) Sample.net_no_live
  = Ok (error_response 404 "No live traffic routes found").
Proof.
  split.
  - refine (proj1 (no_routes_not_found [] Sample.args Sample.net_no_base
                     (Sample.dec 286 10) (Sample.dec 771 10)
                     (Sample.dec 272 10) (Sample.dec 780 10)
                     eq_refl eq_refl _ _ eq_refl eq_refl) (PList []) _ eq_refl);
      vm_compute; reflexivity.
  - refine (proj1 (proj2 (no_routes_not_found [] Sample.args Sample.net_no_live
                     (Sample.dec 286 10) (Sample.dec 771 10)
                     (Sample.dec 272 10) (Sample.dec 780 10)
                     eq_refl eq_refl _ _ eq_refl eq_refl))
                  (PList [Sample.base_route (Sample.dec 15 10)]) (PList [])
                  _ eq_refl _ eq_refl);
      vm_compute; reflexivity.
Defined.

(** ** Geocoding *)

Lemma outcome_geocode_place env place net :
  outcome (geocode_place env place) net = geocoded (net 0%nat).
Proof.
  unfold outcome. rewrite run_geocode_place. reflexivity.
Qed.

Lemma unpack2_none c :
  Py.unpack2 c = Ok (PNone, PNone) <-> c = PList [PNone; PNone].
Proof.
  split; [| intros ->; reflexivity].
  unfold Py.unpack2.
  destruct c as [| b | z | f | s | l | d]; cbn; try discriminate.
  - destruct s as [| a [| b [| c s]]]; cbn; discriminate.
  - destruct l as [| x [| y [| z l]]]; try discriminate.
    intros H. inversion H. reflexivity.
  - destruct d as [| x [| y [| z d]]]; cbn; discriminate.
Qed.

(** The two ways [first_coordinates] gives [(None, None)]. *)
Lemma first_coordinates_none data :
  first_coordinates data = Ok (PNone, PNone) <->
  exists features,
    Py.get data "features" PNone = Ok features /\
    (Py.truthy features = false \/
     exists f0 g,
       Py.getitem_int features 0 = Ok f0 /\
       Py.getitem_str f0 "geometry" = Ok g /\
       Py.getitem_str g "coordinates" = Ok (PList [PNone; PNone])).
Proof.
  unfold first_coordinates.
  destruct data as [| b | z | f | s | l | d];
    try (split; [discriminate | intros (? & H & _); discriminate H]).
  cbn [Py.get Py.getitem_str bind Monad_result].
  destruct (Py.lookup "features" d) as [fs |] eqn:Hf.
  2:{ cbn. split; [| reflexivity]. intros _. exists PNone. split; [reflexivity |].
      left. reflexivity. }
  destruct (Py.truthy fs) eqn:Ht.
  2:{ split; [| reflexivity]. intros _. exists fs. split; [reflexivity |].
      left. assumption. }
  split.
  - intros H. ok_steps H. inversion H; subst.
    apply unpack2_none in Hx2. subst.
    exists fs. split; [reflexivity |]. right. eauto.
  - intros (fs' & E & [Hfalse | (f0 & g & H0 & Hg & Hc)]);
      inversion E; subst fs'; [congruence |].
    rewrite H0. cbn [bind Monad_result]. rewrite Hg. cbn [bind Monad_result].
    rewrite Hc. reflexivity.
Qed.

(** C8, as amended: [geocode_place] returns [(None, None)] when the
    provider's reply decodes to a body whose [features] are missing or
    empty, and otherwise only when the coordinates of the first feature
    are themselves [[null, null]]; an error status (4xx, 5xx) or no reply
    at all raises instead; and when both geocoding calls return, the
    handler answers 400 "Could not geocode one or both places." exactly
    when one of the two latitudes is [None]. *)
Theorem geocoding_outcomes env place args net :
  (outcome (geocode_place env place) net = Ok (PNone, PNone) <->
   exists data features,
     decoded (net 0%nat) = Ok data /\
     Py.get data "features" PNone = Ok features /\
     (Py.truthy features = false \/
      exists f0 g,
        Py.getitem_int features 0 = Ok f0 /\
        Py.getitem_str f0 "geometry" = Ok g /\
        Py.getitem_str g "coordinates" = Ok (PList [PNone; PNone]))) /\
  (forall c b,
      net 0%nat = Reply c b -> 400 <= c < 600 ->
      outcome (geocode_place env place) net = Exn HTTPError) /\
  (net 0%nat = NoReply ->
   outcome (geocode_place env place) net = Exn RequestException) /\
  (forall lat1 lon1 lat2 lon2,
      PyStr.all_space (args_get args "start" "") = false ->
      PyStr.all_space (args_get args "end" "") = false ->
      geocoded (net 0%nat) = Ok (lat1, lon1) ->
      geocoded (net 1%nat) = Ok (lat2, lon2) ->
      (outcome (api_route env args) net
       = Ok (error_response 400 "Could not geocode one or both places.")
       <-> lat1 = PNone \/ lat2 = PNone)).
Proof.
  rewrite outcome_geocode_place. split; [| split; [| split]].
  - split.
    + unfold geocoded. intros H. apply bind_ok in H.
      destruct H as (data & Hd & H).
      apply first_coordinates_none in H. destruct H as (fs & Hf & H).
      exists data, fs. repeat split; assumption.
    + intros (data & fs & Hd & Hf & H). unfold geocoded. rewrite Hd.
      cbn [bind Monad_result]. apply first_coordinates_none. eauto.
  - intros c b -> [Hlo Hhi]. unfold geocoded, decoded, Requests.raise_for_status.
    cbn [status_code].
    destruct (Z.leb_spec 400 c); [| lia]. destruct (Z.ltb_spec c 600); [| lia].
    reflexivity.
  - intros ->. reflexivity.
  - intros lat1 lon1 lat2 lon2 Hs He H1 H2.
    rewrite outcome_api_route. cbv zeta.
    rewrite !is_empty_strip. rewrite Hs, He, H1, H2.
    cbn [orb bind Monad_result]. split.
    + intros H.
      destruct lat1; [left; reflexivity | ..];
        (destruct lat2; [right; reflexivity | ..]);
        cbn [Py.is_none orb] in H; exfalso;
        (destruct (reply_routes (net 2%nat)) as [base | e]; [| discriminate H]);
        cbn [bind Monad_result] in H;
        (destruct (negb (Py.truthy base)); [discriminate H |]);
        (destruct (reply_routes (net 3%nat)) as [live | e]; [| discriminate H]);
        cbn [bind Monad_result] in H;
        (destruct (negb (Py.truthy live)); [discriminate H |]);
        (destruct (routes_payload base live); discriminate H).
    + intros [-> | ->]; [| rewrite orb_true_r]; reflexivity.
Qed.

Lemma geocoding_outcomes_witness :
  outcome (geocode_place [] "Atlantis") (replies [Sample.nowhere])
  = Ok (PNone, PNone) /\
  outcome (geocode_place [] "Atlantis") (replies [Reply 503 None])
  = Exn HTTPError /\
  outcome (geocode_place [] "Atlantis") (replies [])
  = Exn RequestException /\
  outcome (api_route [] Sample.args) (replies [Sample.delhi; Sample.nowhere])
  = Ok (error_response 400 "Could not geocode one or both places.").
Proof.
  split; [| split; [| split]].
  - apply (proj1 (geocoding_outcomes [] "Atlantis" [] (replies [Sample.nowhere]))).
    exists (PDict [("type", PStr "FeatureCollection"); ("features", PList [])]),
           (PList []).
    repeat split; try reflexivity. left. reflexivity.
  - apply (proj1 (proj2 (geocoding_outcomes [] "Atlantis" []
                           (replies [Reply 503 None]))) 503 None eq_refl).
    lia.
  - apply (proj1 (proj2 (proj2 (geocoding_outcomes [] "Atlantis" [] (replies []))))).
    reflexivity.
  - apply (proj2 (proj2 (proj2 (geocoding_outcomes [] "Atlantis" Sample.args
                                  (replies [Sample.delhi; Sample.nowhere]))))
             (Sample.dec 286 10) (Sample.dec 771 10) PNone PNone
             eq_refl eq_refl).
    + vm_compute. reflexivity.
    + vm_compute. reflexivity.
    + right. reflexivity.
Defined.

(** C8, as stated, fails in three places.  In its "only if": a reply
    whose single feature has the coordinates [[null, null]] is not an
    empty feature set, and [geocode_place] returns [(None, None)] on it.
    In "a non-success status raises": [raise_for_status] raises on 4xx and
    5xx only, so a 300 reply whose body has no features gives
    [(None, None)].  In its "exactly when": with a start place that is not
    found and an end place whose geocoding gets a 503, the handler raises
    before it compares the latitudes, and answers no 400. *)
Lemma geocoding_claim_fails :
  (outcome (geocode_place [] "Null Island") (replies [Sample.null_island])
   = Ok (PNone, PNone) /\
   exists data feature,
     decoded (replies [Sample.null_island] 0%nat) = Ok data /\
     Py.get data "features" PNone = Ok (PList [feature]) /\
     Py.truthy (PList [feature]) = true) /\
  outcome (geocode_place [] "Atlantis")
          (replies [Reply 300 (Some (PDict [("features", PList [])]))])
  = Ok (PNone, PNone) /\
  (outcome (geocode_place [] "Atlantis") (replies [Sample.nowhere])
   = Ok (PNone, PNone) /\
   outcome (api_route [] [("start", "Atlantis"); ("end", "Agra")])
           (replies [Sample.nowhere; Reply 503 None])
   = Exn HTTPError).
Proof.
  split; [split; [reflexivity |] | split; [reflexivity | split; reflexivity]].
  do 2 eexists. vm_compute. repeat split; reflexivity.
Qed.

(** ** Annotations *)

(** [a[i] if i < len(a) else None], read both ways. *)
Lemma item_or_none_ok a i x :
  item_or_none a i = Ok x ->
  exists n,
    Py.len a = Ok n /\
    (i < n -> Py.getitem_int a i = Ok x) /\
    (n <= i -> x = PNone).
Proof.
  unfold item_or_none. intros H. apply bind_ok in H.
  destruct H as (n & Hn & H). exists n. split; [assumption |].
  destruct (Z.ltb_spec i n).
  - split; [intros _; assumption | lia].
  - inversion H. split; [lia | reflexivity].
Qed.






(** ** Missing distance and duration *)

Lemma lookup_app k d k' v :
  Py.lookup k (d ++ [(k', v)])
  = match Py.lookup k d with
    | Some x => Some x
    | None => if String.eqb k k' then Some v else None
    end.
Proof.
  induction d as [| [k0 v0] d IH]; cbn.
  - reflexivity.
  - destruct (String.eqb k k0); [reflexivity | exact IH].
Qed.

(** Writing a missing field with the default of its [get] changes no
    [get] of the route. *)
Lemma get_with_default d k v key default :
  Py.lookup k d = None ->
  (key = k -> default = v) ->
  Py.get (PDict (d ++ [(k, v)])) key default = Py.get (PDict d) key default.
Proof.
  intros Hk Hdef. cbn [Py.get]. rewrite lookup_app.
  destruct (Py.lookup key d) as [x |] eqn:Hx; [reflexivity |].
  destruct (String.eqb_spec key k) as [E | _]; [| reflexivity].
  rewrite (Hdef E). reflexivity.
Qed.

Lemma route_payload_with_default base ridx d k :
  k = "distance" \/ k = "duration" ->
  Py.lookup k d = None ->
  route_payload base ridx (PDict (d ++ [(k, PInt 0)]))
  = route_payload base ridx (PDict d).
Proof.
  intros Hk Hnone.
  unfold route_payload, route_segments, first_annotation, route_coords.
  rewrite !(get_with_default d k (PInt 0)); try assumption; try reflexivity;
    intros E; destruct Hk as [-> | ->]; try reflexivity; discriminate E.
Qed.

(** C10: in a 200 response the [distance_m] of a route is the [distance]
    field of its live route, or 0 when the route has none, and
    [traffic_s] is 0 when the live route has no [duration]; a live route
    without one of these fields is assembled exactly as the same route
    with the field set to 0. *)
Theorem missing_fields_default_to_zero env args net resp :
  outcome (api_route env args) net = Ok resp ->
  status resp = 200 ->
  (exists live payload,
      reply_routes (net 3%nat) = Ok (PList live) /\
      response_routes resp = Some payload /\
      forall i route,
        nth_error payload i = Some route ->
        exists d,
          nth_error live i = Some (PDict d) /\
          field route "distance_m"
          = Some (match Py.lookup "distance" d with
                  | Some x => x
                  | None => PInt 0
                  end) /\
          (Py.lookup "duration" d = None ->
           duration_field route "traffic_s" = Some (PInt 0))) /\
  (forall base ridx d,
      Py.lookup "distance" d = None ->
      route_payload base ridx (PDict d)
      = route_payload base ridx (PDict (d ++ [("distance", PInt 0)]))) /\
  (forall base ridx d,
      Py.lookup "duration" d = None ->
      route_payload base ridx (PDict d)
      = route_payload base ridx (PDict (d ++ [("duration", PInt 0)]))).
Proof.
  intros H Hs. split; [| split].
  - destruct (success_inv _ _ _ _ H Hs)
      as (bl & live & payload & _ & Hlive & Hresp & _ & _ & Hnth).
    exists live, payload. repeat (split; [assumption |]).
    intros i route Hi. destruct (Hnth i route Hi) as (lr & Hlr & Hr).
    apply route_payload_ok in Hr.
    destruct Hr as (dm & ld & bd & segs & dl & bs & ts
                    & Hdm & Hld & _ & _ & _ & _ & Hts & ->).
    destruct lr as [| b | z | f | s | l | d]; try discriminate Hdm.
    exists d. split; [assumption |].
    cbn [Py.get] in Hdm, Hld. inversion Hdm; subst dm.
    split; [reflexivity |].
    intros Hnone. rewrite Hnone in Hld. inversion Hld; subst ld.
    inversion Hts. reflexivity.
  - intros base ridx d Hnone. symmetry.
    apply route_payload_with_default; [left; reflexivity | assumption].
  - intros base ridx d Hnone. symmetry.
    apply route_payload_with_default; [right; reflexivity | assumption].
Qed.

Lemma missing_fields_default_to_zero_witness :
  exists live payload,
    reply_routes (Sample.net 3%nat) = Ok (PList live) /\
    response_routes Sample.response = Some payload /\
    option_map (fun route => field route "distance_m") (nth_error payload 2)
    = Some (Some (PInt 0)).
Proof.
  destruct (missing_fields_default_to_zero [] Sample.args Sample.net
              Sample.response)
    as [(live & payload & Hlive & Hresp & _) _].
  - vm_compute. reflexivity.
  - reflexivity.
  - exists live, payload. repeat (split; [assumption |]).
    vm_compute in Hresp. inversion Hresp. reflexivity.
Defined.

(** * Further properties of the code *)

(** ** The directions helper *)

(** X1: [mapbox_directions] sends exactly one request and returns the
    decoded body of the reply as it is; it raises [RequestException] when
    there is no reply, [HTTPError] on a 4xx or 5xx status, and
    [JSONDecodeError] when the body is not JSON. *)
Theorem mapbox_directions_raw_json env lat1 lon1 lat2 lon2 profile ann alt net :
  sent (mapbox_directions env lat1 lon1 lat2 lon2 profile ann alt) net
  = [directions_request env lat1 lon1 lat2 lon2 profile ann alt] /\
  outcome (mapbox_directions env lat1 lon1 lat2 lon2 profile ann alt) net
  = match net 0%nat with
    | NoReply => Exn RequestException
    | Reply c None =>
        if (400 <=? c) && (c <? 600) then Exn HTTPError else Exn JSONDecodeError
    | Reply c (Some v) =>
        if (400 <=? c) && (c <? 600) then Exn HTTPError else Ok v
    end.
Proof.
  unfold sent, outcome. rewrite run_mapbox_directions. cbn [fst snd].
  split; [reflexivity |].
  unfold decoded, Requests.raise_for_status, Requests.json.
  destruct (net 0%nat) as [| c [v |]]; cbn [status_code json_body];
    try reflexivity;
    destruct ((400 <=? c) && (c <? 600)); reflexivity.
Qed.

(** ** The requests of the handler *)

(** Reads the entries of a trace that is known. *)
Ltac trace_case :=
  cbn; repeat split; try lia; intros;
  repeat match goal with
         | H : Some _ = Some _ |- _ => inversion H; clear H; subst
         | H : None = Some _ |- _ => discriminate H
         end;
  try reflexivity.

(** X2: the handler sends at most four requests, always in the same
    order: the geocoding of the trimmed start, the geocoding of the
    trimmed end, the baseline query ([driving], no annotations), the live
    query ([driving-traffic], with the annotations).  A directions query
    is sent only after both places are geocoded with a latitude, both
    queries carry the same coordinates, and the live query is sent only
    after a non-empty collection of baseline routes. *)
Theorem requests_in_order env args net :
  (List.length (sent (api_route env args) net) <= 4)%nat /\
  (forall rq,
      nth_error (sent (api_route env args) net) 0 = Some rq ->
      rq = geocode_request env (PyStr.strip (args_get args "start" ""))) /\
  (forall rq,
      nth_error (sent (api_route env args) net) 1 = Some rq ->
      rq = geocode_request env (PyStr.strip (args_get args "end" ""))) /\
  (forall rq,
      nth_error (sent (api_route env args) net) 2 = Some rq ->
      exists lat1 lon1 lat2 lon2,
        geocoded (net 0%nat) = Ok (lat1, lon1) /\
        geocoded (net 1%nat) = Ok (lat2, lon2) /\
        Py.is_none lat1 = false /\ Py.is_none lat2 = false /\
        rq = directions_request env lat1 lon1 lat2 lon2 "driving" None true) /\
  (forall rq,
      nth_error (sent (api_route env args) net) 3 = Some rq ->
      exists lat1 lon1 lat2 lon2 base_routes,
        geocoded (net 0%nat) = Ok (lat1, lon1) /\
        geocoded (net 1%nat) = Ok (lat2, lon2) /\
        reply_routes (net 2%nat) = Ok base_routes /\
        Py.truthy base_routes = true /\
        rq = directions_request env lat1 lon1 lat2 lon2 "driving-traffic"
                                (Some live_annotations) true).
Proof.
  unfold sent. rewrite run_api_route. cbv zeta.
  destruct (PyStr.is_empty _ || PyStr.is_empty _); [trace_case |].
  destruct (geocoded (net 0%nat)) as [[lat1 lon1] | e]; [| trace_case].
  destruct (geocoded (net 1%nat)) as [[lat2 lon2] | e]; [| trace_case].
  destruct (Py.is_none lat1) eqn:Hn1; [trace_case |].
  destruct (Py.is_none lat2) eqn:Hn2; [trace_case |].
  cbn [orb].
  destruct (reply_routes (net 2%nat)) as [base | e].
  2:{ trace_case. exists lat1, lon1, lat2, lon2. repeat split; assumption. }
  destruct (Py.truthy base) eqn:Hb; cbn [negb].
  2:{ trace_case. exists lat1, lon1, lat2, lon2. repeat split; assumption. }
  destruct (reply_routes (net 3%nat)) as [live | e];
    [destruct (negb (Py.truthy live)) |];
    trace_case;
    try (exists lat1, lon1, lat2, lon2; repeat split; assumption);
    exists lat1, lon1, lat2, lon2, base; repeat split; assumption.
Qed.

Lemma requests_in_order_witness :
  List.length (sent (api_route [] Sample.args) Sample.net) = 4%nat /\
  exists lat1 lon1 lat2 lon2,
    nth_error (sent (api_route [] Sample.args) Sample.net) 2
    = Some (directions_request [] lat1 lon1 lat2 lon2 "driving" None true).
Proof.
  split; [vm_compute; reflexivity |].
  destruct (proj1 (proj2 (proj2 (proj2
              (requests_in_order [] Sample.args Sample.net))))
              (directions_request [] (Sample.dec 286 10) (Sample.dec 771 10)
                                  (Sample.dec 272 10) (Sample.dec 780 10)
                                  "driving" None true))
    as (lat1 & lon1 & lat2 & lon2 & _ & _ & _ & _ & E).
  - vm_compute. reflexivity.
  - exists lat1, lon1, lat2, lon2. rewrite <- E. vm_compute. reflexivity.
Defined.

Lemma geocoded_exn r e : decoded r = Exn e -> geocoded r = Exn e.
Proof. unfold geocoded. intros ->. reflexivity. Qed.

Lemma reply_routes_exn r e : decoded r = Exn e -> reply_routes r = Exn e.
Proof. unfold reply_routes. intros ->. reflexivity. Qed.

(** X3: no retry and no degraded answer: when the reply to a request the
    handler has sent is missing, has a 4xx or 5xx status or is not JSON,
    the handler raises that exception, and that request is the last one
    it sent. *)
Theorem failed_call_fails_request env args net k e :
  (k < List.length (sent (api_route env args) net))%nat ->
  decoded (net k) = Exn e ->
  outcome (api_route env args) net = Exn e /\
  List.length (sent (api_route env args) net) = S k.
Proof.
  intros Hk Hd. revert Hk.
  pose proof (geocoded_exn _ _ Hd) as Hg.
  pose proof (reply_routes_exn _ _ Hd) as Hr.
  unfold sent, outcome. rewrite run_api_route. cbv zeta.
  destruct (PyStr.is_empty _ || PyStr.is_empty _); [cbn; lia |].
  destruct (geocoded (net 0%nat)) as [[lat1 lon1] | e0] eqn:G0;
    [destruct (geocoded (net 1%nat)) as [[lat2 lon2] | e1] eqn:G1;
     [destruct (Py.is_none lat1 || Py.is_none lat2);
      [| destruct (reply_routes (net 2%nat)) as [base | e2] eqn:G2;
         [destruct (negb (Py.truthy base));
          [| destruct (reply_routes (net 3%nat)) as [live | e3] eqn:G3;
             [destruct (negb (Py.truthy live)) |]] |]] |] |];
    cbn; intros Hk;
    repeat (destruct k as [| k];
            [first [exfalso; congruence | split; [congruence | reflexivity]] |]);
    lia.
Qed.

Lemma failed_call_fails_request_witness :
  outcome (api_route [] Sample.args)
          (replies [Sample.delhi; Sample.agra; Reply 429 None])
  = Exn HTTPError /\
  List.length (sent (api_route [] Sample.args)
                    (replies [Sample.delhi; Sample.agra; Reply 429 None]))
  = 3%nat.
Proof.
  apply (failed_call_fails_request [] Sample.args
           (replies [Sample.delhi; Sample.agra; Reply 429 None]) 2 HTTPError).
  - vm_compute. lia.
  - reflexivity.
Defined.

(** X4: both places are geocoded before either result is looked at: the
    end place is requested even when the start place is not found, and
    when one of the two is not found the handler stops after these two
    requests, without any directions query. *)
Theorem both_places_geocoded_first env args net lat1 lon1 :
  PyStr.all_space (args_get args "start" "") = false ->
  PyStr.all_space (args_get args "end" "") = false ->
  geocoded (net 0%nat) = Ok (lat1, lon1) ->
  nth_error (sent (api_route env args) net) 1
  = Some (geocode_request env (PyStr.strip (args_get args "end" ""))) /\
  forall lat2 lon2,
    geocoded (net 1%nat) = Ok (lat2, lon2) ->
    lat1 = PNone \/ lat2 = PNone ->
    sent (api_route env args) net
    = [ geocode_request env (PyStr.strip (args_get args "start" ""));
        geocode_request env (PyStr.strip (args_get args "end" "")) ].
Proof.
  intros Hs He H0. unfold sent. rewrite run_api_route. cbv zeta.
  rewrite !is_empty_strip, Hs, He, H0. cbn [orb]. split.
  - destruct (geocoded (net 1%nat)) as [[lat2 lon2] | e]; [| reflexivity].
    destruct (Py.is_none lat1 || Py.is_none lat2); [reflexivity |].
    destruct (reply_routes (net 2%nat)) as [base | e]; [| reflexivity].
    destruct (negb (Py.truthy base)); [reflexivity |].
    destruct (reply_routes (net 3%nat)) as [live | e]; [| reflexivity].
    destruct (negb (Py.truthy live)); reflexivity.
  - intros lat2 lon2 H1 Hnone. rewrite H1.
    destruct Hnone as [-> | ->]; [| rewrite orb_true_r]; reflexivity.
Qed.

Lemma both_places_geocoded_first_witness :
  sent (api_route [] Sample.args) (replies [Sample.nowhere; Sample.agra])
  = [geocode_request [] "Delhi"; geocode_request [] "Agra"].
Proof.
  refine (proj2 (both_places_geocoded_first [] Sample.args
                   (replies [Sample.nowhere; Sample.agra]) PNone PNone
                   eq_refl eq_refl eq_refl)
                (Sample.dec 272 10) (Sample.dec 780 10) _ (or_introl eq_refl)).
  vm_compute. reflexivity.
Defined.

(** ** The responses of the handler *)

(** X5: when the handler answers, the status is 200, 400 or 404 and
    nothing else; a 200 body has a [routes] array and no [error] entry,
    and a 400 or 404 body is an [error] object with one of four fixed
    messages and no [routes] array. *)
Theorem response_statuses env args net resp :
  outcome (api_route env args) net = Ok resp ->
  (status resp = 200 /\
   field (body resp) "error" = None /\
   exists payload, response_routes resp = Some payload) \/
  (response_routes resp = None /\
   (resp = error_response 400 "start and end are required" \/
    resp = error_response 400 "Could not geocode one or both places." \/
    resp = error_response 404 "No base routes found" \/
    resp = error_response 404 "No live traffic routes found")).
Proof.
  rewrite outcome_api_route. cbv zeta. intros H.
  destruct (PyStr.is_empty _ || PyStr.is_empty _).
  { inversion H. right. split; [reflexivity | tauto]. }
  destruct (geocoded (net 0%nat)) as [[lat1 lon1] | e]; [| discriminate H].
  destruct (geocoded (net 1%nat)) as [[lat2 lon2] | e]; [| discriminate H].
  cbn [bind Monad_result] in H.
  destruct (Py.is_none lat1 || Py.is_none lat2).
  { inversion H. right. split; [reflexivity | tauto]. }
  destruct (reply_routes (net 2%nat)) as [base | e]; [| discriminate H].
  cbn [bind Monad_result] in H.
  destruct (negb (Py.truthy base)).
  { inversion H. right. split; [reflexivity | tauto]. }
  destruct (reply_routes (net 3%nat)) as [live | e]; [| discriminate H].
  cbn [bind Monad_result] in H.
  destruct (negb (Py.truthy live)).
  { inversion H. right. split; [reflexivity | tauto]. }
  destruct (routes_payload base live) as [payload | e]; [| discriminate H].
  inversion H. left. repeat split. exists payload. reflexivity.
Qed.

Lemma response_statuses_witness :
  status Sample.response = 200 /\
  field (body Sample.response) "error" = None.
Proof.
  destruct (response_statuses [] Sample.args Sample.net Sample.response)
    as [(Hs & He & _) | (Hr & _)].
  - vm_compute. reflexivity.
  - split; assumption.
  - vm_compute in Hr. discriminate Hr.
Defined.

Lemma for_each_all {A B} (f : A -> result B) l :
  (forall x, In x l -> exists y, f x = Ok y) ->
  exists ys, for_each f l = Ok ys.
Proof.
  induction l as [| x l IH]; intros H; cbn [for_each].
  - eauto.
  - destruct (H x (or_introl eq_refl)) as [y Hy].
    destruct (IH (fun a Ha => H a (or_intror Ha))) as [ys Hys].
    exists (y :: ys). rewrite Hy, Hys. reflexivity.
Qed.

(** The loop over a list of live routes ends well exactly when each
    route, at its position, is assembled; the payload then holds the
    records in order. *)
Lemma routes_payload_list bl live :
  (exists payload, routes_payload (PList bl) (PList live) = Ok payload) <->
  (forall i live_route,
      nth_error live i = Some live_route ->
      exists route, route_payload (PList bl) (Z.of_nat i) live_route = Ok route).
Proof.
  unfold routes_payload. cbn [Py.iter bind Monad_result]. split.
  - intros [payload H] i lr Hi.
    apply for_each_ok, Forall2_nth in H. destruct H as [Hlen Hnth].
    rewrite enumerate_length in Hlen.
    assert (i < List.length payload)%nat as Hlt
        by (rewrite <- Hlen; apply nth_error_Some; congruence).
    destruct (nth_error payload i) as [route |] eqn:Hr;
      [| apply nth_error_None in Hr; lia].
    destruct (Hnth i route Hr) as ([k lr'] & Hk & Hp).
    apply enumerate_nth in Hk. cbn [fst snd] in *. destruct Hk as [-> Hk].
    exists route. congruence.
  - intros Hall. apply for_each_all. intros [k lr] Hin.
    destruct (enumerate_In _ _ _ Hin) as (i & -> & Hi).
    exact (Hall i lr Hi).
Qed.

(** X6: all or nothing: the handler answers 200 only when both
    parameters are non-blank, both places are geocoded with a latitude,
    both route collections are non-empty lists, and every live route, at
    its position, is assembled, the [routes] array being the payload of
    the loop; and the loop over the live routes gives a payload exactly
    when every route can be assembled, so that one route that cannot be
    assembled raises and leaves no partial payload. *)
Theorem success_all_or_nothing env args net :
  (forall resp,
      outcome (api_route env args) net = Ok resp ->
      status resp = 200 ->
      PyStr.all_space (args_get args "start" "") = false /\
      PyStr.all_space (args_get args "end" "") = false /\
      exists lat1 lon1 lat2 lon2 bl live payload,
        geocoded (net 0%nat) = Ok (lat1, lon1) /\
        geocoded (net 1%nat) = Ok (lat2, lon2) /\
        Py.is_none lat1 = false /\ Py.is_none lat2 = false /\
        reply_routes (net 2%nat) = Ok (PList bl) /\ bl <> [] /\
        reply_routes (net 3%nat) = Ok (PList live) /\ live <> [] /\
        routes_payload (PList bl) (PList live) = Ok payload /\
        response_routes resp = Some payload /\
        forall i live_route,
          nth_error live i = Some live_route ->
          exists route,
            route_payload (PList bl) (Z.of_nat i) live_route = Ok route) /\
  (forall bl live,
      (exists payload, routes_payload (PList bl) (PList live) = Ok payload) <->
      (forall i live_route,
          nth_error live i = Some live_route ->
          exists route,
            route_payload (PList bl) (Z.of_nat i) live_route = Ok route)).
Proof.
  split; [| apply routes_payload_list].
  intros resp H Hs. rewrite outcome_api_route in H. cbv zeta in H.
  rewrite !is_empty_strip in H.
  destruct (PyStr.all_space (args_get args "start" "")).
  { inversion H; subst. discriminate Hs. }
  destruct (PyStr.all_space (args_get args "end" "")).
  { inversion H; subst. discriminate Hs. }
  cbn [orb] in H. split; [reflexivity |]. split; [reflexivity |].
  destruct (geocoded (net 0%nat)) as [[lat1 lon1] | e]; [| discriminate H].
  destruct (geocoded (net 1%nat)) as [[lat2 lon2] | e]; [| discriminate H].
  cbn [bind Monad_result] in H.
  destruct (Py.is_none lat1) eqn:Hn1.
  { inversion H; subst. discriminate Hs. }
  destruct (Py.is_none lat2) eqn:Hn2.
  { inversion H; subst. discriminate Hs. }
  cbn [orb] in H.
  destruct (reply_routes (net 2%nat)) as [base | e]; [| discriminate H].
  cbn [bind Monad_result] in H.
  destruct (Py.truthy base) eqn:Hb; cbn [negb] in H.
  2:{ inversion H; subst. discriminate Hs. }
  destruct (reply_routes (net 3%nat)) as [live | e]; [| discriminate H].
  cbn [bind Monad_result] in H.
  destruct (Py.truthy live) eqn:Hl; cbn [negb] in H.
  2:{ inversion H; subst. discriminate Hs. }
  destruct (routes_payload base live) as [payload | e] eqn:Hp;
    [| discriminate H].
  cbn [bind Monad_result] in H. inversion H; subst resp. clear H Hs.
  destruct (routes_payload_ok _ _ _ Hl Hp) as (items & -> & Hlen & Hnth).
  assert (Hne : items <> []) by (destruct items; [discriminate Hl | discriminate]).
  assert (exists bl, base = PList bl) as [bl ->].
  { destruct items as [| l0 items]; [congruence |].
    destruct payload as [| r0 payload]; [discriminate Hlen |].
    destruct (Hnth 0%nat r0 eq_refl) as (lr & _ & Hr).
    apply route_payload_ok in Hr.
    destruct Hr as (? & ld & bd & ? & ? & ? & ? & _ & _ & Hbd & _).
    eapply base_duration_of_list; eassumption. }
  exists lat1, lon1, lat2, lon2, bl, items, payload.
  repeat (split; [reflexivity || assumption |]).
  split; [destruct bl; [discriminate Hb | discriminate] |].
  split; [reflexivity |]. split; [assumption |].
  split; [assumption |]. split; [reflexivity |].
  apply routes_payload_list. eauto.
Qed.

Lemma success_all_or_nothing_witness :
  exists bl live payload,
    reply_routes (Sample.net 2%nat) = Ok (PList bl) /\
    reply_routes (Sample.net 3%nat) = Ok (PList live) /\
    routes_payload (PList bl) (PList live) = Ok payload /\
    response_routes Sample.response = Some payload.
Proof.
  destruct (proj1 (success_all_or_nothing [] Sample.args Sample.net)
              Sample.response)
    as (_ & _ & ? & ? & ? & ? & bl & live & payload
        & _ & _ & _ & _ & Hbase & _ & Hlive & _ & Hp & Hresp & _).
  - vm_compute. reflexivity.
  - reflexivity.
  - exists bl, live, payload. repeat split; assumption.
Defined.

(** ** Trimmed names *)

Lemma rstrip_idempotent s : PyStr.rstrip (PyStr.rstrip s) = PyStr.rstrip s.
Proof.
  induction s as [| c s IH]; cbn [PyStr.rstrip]; [reflexivity |].
  destruct (PyStr.rstrip s) as [| c' r] eqn:Hr.
  - destruct (PyStr.isspace c) eqn:Hc; cbn [PyStr.rstrip]; [reflexivity |].
    rewrite Hc. reflexivity.
  - change (PyStr.rstrip (String c (String c' r)))
      with (match PyStr.rstrip (String c' r) with
            | EmptyString =>
                if PyStr.isspace c then EmptyString else String c EmptyString
            | r' => String c r'
            end).
    rewrite IH. reflexivity.
Qed.

(** What [lstrip] returns does not start with whitespace. *)
Lemma lstrip_head s :
  PyStr.lstrip s = "" \/
  exists c r, PyStr.lstrip s = String c r /\ PyStr.isspace c = false.
Proof.
  induction s as [| c s IH]; cbn [PyStr.lstrip]; [left; reflexivity |].
  destruct (PyStr.isspace c) eqn:Hc; [exact IH |].
  right. exists c, s. split; [reflexivity | assumption].
Qed.

(** [rstrip] keeps a first character that is not whitespace. *)
Lemma rstrip_head c r :
  PyStr.isspace c = false -> exists r', PyStr.rstrip (String c r) = String c r'.
Proof.
  intros Hc. cbn [PyStr.rstrip]. destruct (PyStr.rstrip r).
  - rewrite Hc. eauto.
  - eauto.
Qed.

Lemma strip_idempotent s : PyStr.strip (PyStr.strip s) = PyStr.strip s.
Proof.
  unfold PyStr.strip.
  destruct (lstrip_head s) as [-> | (c & r & -> & Hc)]; [reflexivity |].
  destruct (rstrip_head c r Hc) as [r' Hr]. rewrite Hr.
  cbn [PyStr.lstrip]. rewrite Hc. rewrite <- Hr. apply rstrip_idempotent.
Qed.

(** X7: a 200 response echoes, for the start and for the end, the trimmed
    parameter as [name] and the coordinates [geocode_place] returned for
    it as [lat] and [lon]; the echoed names are not empty and have no
    whitespace left to trim. *)
Theorem places_echoed env args net resp :
  outcome (api_route env args) net = Ok resp ->
  status resp = 200 ->
  exists start end_ lat1 lon1 lat2 lon2,
    start = PyStr.strip (args_get args "start" "") /\
    end_ = PyStr.strip (args_get args "end" "") /\
    geocoded (net 0%nat) = Ok (lat1, lon1) /\
    geocoded (net 1%nat) = Ok (lat2, lon2) /\
    field (body resp) "start"
    = Some (PDict [("name", PStr start); ("lat", lat1); ("lon", lon1)]) /\
    field (body resp) "end"
    = Some (PDict [("name", PStr end_); ("lat", lat2); ("lon", lon2)]) /\
    start <> "" /\ end_ <> "" /\
    PyStr.strip start = start /\ PyStr.strip end_ = end_ /\
    lat1 <> PNone /\ lat2 <> PNone.
Proof.
  rewrite outcome_api_route. cbv zeta. intros H Hs.
  unfold PyStr.is_empty in H.
  destruct (String.eqb_spec (PyStr.strip (args_get args "start" "")) "") as [| Hne1].
  { inversion H; subst. discriminate Hs. }
  destruct (String.eqb_spec (PyStr.strip (args_get args "end" "")) "") as [| Hne2].
  { inversion H; subst. discriminate Hs. }
  cbn [orb] in H.
  destruct (geocoded (net 0%nat)) as [[lat1 lon1] | e]; [| discriminate H].
  destruct (geocoded (net 1%nat)) as [[lat2 lon2] | e]; [| discriminate H].
  cbn [bind Monad_result] in H.
  destruct (Py.is_none lat1) eqn:Hn1.
  { inversion H; subst. discriminate Hs. }
  destruct (Py.is_none lat2) eqn:Hn2.
  { inversion H; subst. discriminate Hs. }
  cbn [orb] in H.
  destruct (reply_routes (net 2%nat)) as [base | e]; [| discriminate H].
  cbn [bind Monad_result] in H.
  destruct (negb (Py.truthy base)).
  { inversion H; subst. discriminate Hs. }
  destruct (reply_routes (net 3%nat)) as [live | e]; [| discriminate H].
  cbn [bind Monad_result] in H.
  destruct (negb (Py.truthy live)).
  { inversion H; subst. discriminate Hs. }
  destruct (routes_payload base live) as [payload | e]; [| discriminate H].
  inversion H; subst resp.
  do 6 eexists.
  repeat (split; [reflexivity || assumption || apply strip_idempotent |]).
  split; intros ->; discriminate.
Qed.

Lemma places_echoed_witness :
  exists lat lon,
    field (body Sample.response) "start"
    = Some (PDict [("name", PStr "Delhi"); ("lat", lat); ("lon", lon)]).
Proof.
  destruct (places_echoed [] Sample.args Sample.net Sample.response)
    as (start & end_ & lat1 & lon1 & lat2 & lon2 & -> & _ & _ & _ & H & _).
  - vm_compute. reflexivity.
  - reflexivity.
  - exists lat1, lon1. exact H.
Defined.

(** ** The geocoding helper *)

(** X8: [geocode_place] reads the first feature only and turns its
    [[lon, lat]] into the pair [(lat, lon)]: whatever else the reply
    holds (further features, other fields) has no effect. *)
Theorem geocode_first_feature env place net c d f0 rest g lon lat :
  net 0%nat = Reply c (Some (PDict d)) ->
  (400 <=? c) && (c <? 600) = false ->
  Py.lookup "features" d = Some (PList (PDict f0 :: rest)) ->
  Py.lookup "geometry" f0 = Some (PDict g) ->
  Py.lookup "coordinates" g = Some (PList [lon; lat]) ->
  outcome (geocode_place env place) net = Ok (lat, lon).
Proof.
  intros Hn Hc Hf Hg Hxy. rewrite outcome_geocode_place, Hn.
  unfold geocoded, decoded, Requests.raise_for_status, Requests.json.
  cbn [status_code json_body]. rewrite Hc.
  cbn [bind Monad_result]. unfold first_coordinates.
  cbn [Py.get Py.getitem_str bind Monad_result]. rewrite Hf.
  cbn [Py.truthy Py.getitem_int bind Monad_result Py.index List.length].
  cbn. rewrite Hg. cbn. rewrite Hxy. reflexivity.
Qed.

Lemma geocode_first_feature_witness :
  outcome (geocode_place [] "Delhi") Sample.net
  = Ok (Sample.dec 286 10, Sample.dec 771 10).
Proof.
  apply (geocode_first_feature [] "Delhi" Sample.net 200
           [("features", PList
              [PDict [("geometry", PDict [("coordinates",
                 PList [Sample.dec 771 10; Sample.dec 286 10])])]])]
           [("geometry", PDict [("coordinates",
              PList [Sample.dec 771 10; Sample.dec 286 10])])]
           []
           [("coordinates", PList [Sample.dec 771 10; Sample.dec 286 10])]);
    reflexivity.
Defined.

(** ** The route records *)

(** X9: in a 200 response the [id] of a route is its position in the
    [routes] array, counted from 0, its three durations are ints, and
    its [segments] entry is a list. *)
Theorem route_ids_are_positions env args net resp :
  outcome (api_route env args) net = Ok resp ->
  status resp = 200 ->
  exists payload,
    response_routes resp = Some payload /\
    forall i route,
      nth_error payload i = Some route ->
      field route "id" = Some (PInt (Z.of_nat i)) /\
      exists base_s traffic_s delay_s segments,
        duration_field route "base_s" = Some (PInt base_s) /\
        duration_field route "traffic_s" = Some (PInt traffic_s) /\
        duration_field route "delay_s" = Some (PInt delay_s) /\
        field route "segments" = Some (PList segments).
Proof.
  intros H Hs.
  destruct (success_inv _ _ _ _ H Hs)
    as (bl & live & payload & _ & _ & Hresp & _ & _ & Hnth).
  exists payload. split; [assumption |].
  intros i route Hi. destruct (Hnth i route Hi) as (lr & _ & Hr).
  apply route_payload_ok in Hr.
  destruct Hr as (dm & ld & bd & segs & dl & bs & ts & _ & _ & _ & _ & _ & _ & _ & ->).
  split; [reflexivity |]. exists bs, ts, dl, segs. repeat split.
Qed.

Lemma route_ids_are_positions_witness :
  exists payload,
    response_routes Sample.response = Some payload /\
    option_map (fun route => field route "id") (nth_error payload 2)
    = Some (Some (PInt 2)).
Proof.
  destruct (route_ids_are_positions [] Sample.args Sample.net Sample.response)
    as (payload & Hresp & Hall).
  - vm_compute. reflexivity.
  - reflexivity.
  - exists payload. split; [assumption |].
    destruct (nth_error payload 2) as [route |] eqn:Hr.
    + cbn. rewrite (proj1 (Hall 2%nat route Hr)). reflexivity.
    + vm_compute in Hresp. inversion Hresp; subst. discriminate Hr.
Defined.

(** A color that is returned is one of the five, for a key that could be
    hashed. *)
Lemma color_for_congestion_ok c col :
  color_for_congestion c = Ok col -> Py.hashable c = true /\ In col colors.
Proof.
  unfold color_for_congestion, table_get.
  destruct (Py.hashable c); [| discriminate].
  intros H. injection H as <-. split; [reflexivity |].
  cbn [table_lookup color_table].
  repeat match goal with
         | |- context [if ?b then _ else _] => destruct b
         end;
    cbn; tauto.
Qed.

(** X10: every segment of every route of a 200 response has a [color]
    among green, orange, red, darkred and gray, and it is the color of
    the table for the segment's own [congestion] entry, which is never a
    list or a dict. *)
Theorem segment_colors env args net resp :
  outcome (api_route env args) net = Ok resp ->
  status resp = 200 ->
  exists payload,
    response_routes resp = Some payload /\
    forall i route,
      nth_error payload i = Some route ->
      exists segments,
        field route "segments" = Some (PList segments) /\
        forall j seg,
          nth_error segments j = Some seg ->
          exists cong col,
            field seg "congestion" = Some cong /\
            field seg "color" = Some (PStr col) /\
            color_for_congestion cong = Ok col /\
            In col colors /\
            Py.hashable cong = true.
Proof.
  intros H Hs.
  destruct (success_inv _ _ _ _ H Hs)
    as (bl & live & payload & _ & _ & Hresp & _ & _ & Hnth).
  exists payload. split; [assumption |].
  intros i route Hi. destruct (Hnth i route Hi) as (lr & _ & Hr).
  apply route_payload_ok in Hr.
  destruct Hr as (dm & ld & bd & segs & dl & bs & ts
                  & _ & _ & _ & Hsegs & _ & _ & _ & ->).
  exists segs. split; [reflexivity |].
  apply route_segments_ok in Hsegs.
  destruct Hsegs as (ann & cg & sp & du & coords & n & _ & _ & _ & _ & _ & _ & _ & Hseg).
  intros j seg Hj. apply Hseg, segment_ok in Hj.
  destruct Hj as (lon_a & lat_a & lon_b & lat_b & cong & speed_ms & dur_s
                  & color & speed_kmh & _ & _ & _ & _ & _ & Hcol & _ & ->).
  exists cong, color. destruct (color_for_congestion_ok _ _ Hcol).
  repeat split; assumption.
Qed.

Lemma segment_colors_witness :
  exists payload route segments,
    response_routes Sample.response = Some payload /\
    nth_error payload 0 = Some route /\
    field route "segments" = Some (PList segments) /\
    List.length segments = 2%nat.
Proof.
  destruct (segment_colors [] Sample.args Sample.net Sample.response)
    as (payload & Hresp & Hall).
  - vm_compute. reflexivity.
  - reflexivity.
  - vm_compute in Hresp. inversion Hresp; subst payload.
    eexists. eexists. 
    destruct (Hall 0%nat _ eq_refl) as (segments & Hsegs & _).
    exists segments. split; [reflexivity |]. split; [reflexivity |].
    split; [exact Hsegs |].
    vm_compute in Hsegs. inversion Hsegs. reflexivity.
Defined.

(** X11: the segments of a route form a chain: the second end of each
    segment is the first end of the next one. *)
Theorem segments_are_chained env args net resp :
  outcome (api_route env args) net = Ok resp ->
  status resp = 200 ->
  exists payload,
    response_routes resp = Some payload /\
    forall i route,
      nth_error payload i = Some route ->
      exists segments,
        field route "segments" = Some (PList segments) /\
        forall j seg next,
          nth_error segments j = Some seg ->
          nth_error segments (S j) = Some next ->
          exists a b c,
            field seg "coords" = Some (PList [a; b]) /\
            field next "coords" = Some (PList [b; c]).
Proof.
  intros H Hs.
  destruct (success_inv _ _ _ _ H Hs)
    as (bl & live & payload & _ & _ & Hresp & _ & _ & Hnth).
  exists payload. split; [assumption |].
  intros i route Hi. destruct (Hnth i route Hi) as (lr & _ & Hr).
  apply route_payload_ok in Hr.
  destruct Hr as (dm & ld & bd & segs & dl & bs & ts
                  & _ & _ & _ & Hsegs & _ & _ & _ & ->).
  exists segs. split; [reflexivity |].
  apply route_segments_ok in Hsegs.
  destruct Hsegs as (ann & cg & sp & du & coords & n & _ & _ & _ & _ & _ & _ & _ & Hseg).
  intros j seg next Hj Hnext.
  apply Hseg, segment_ok in Hj. apply Hseg, segment_ok in Hnext.
  destruct Hj as (lon_a & lat_a & lon_b & lat_b & ? & ? & ? & ? & ?
                  & _ & Hb & _ & _ & _ & _ & _ & ->).
  destruct Hnext as (lon_b' & lat_b' & lon_c & lat_c & ? & ? & ? & ? & ?
                     & Hb' & _ & _ & _ & _ & _ & _ & ->).
  rewrite Nat2Z.inj_succ in Hb'. unfold Z.succ in Hb'.
  rewrite Hb in Hb'. inversion Hb'; subst.
  exists (PList [lat_a; lon_a]), (PList [lat_b'; lon_b']), (PList [lat_c; lon_c]).
  split; reflexivity.
Qed.

Lemma segments_are_chained_witness :
  exists payload, response_routes Sample.response = Some payload.
Proof.
  destruct (segments_are_chained [] Sample.args Sample.net Sample.response)
    as (payload & Hresp & _).
  - vm_compute. reflexivity.
  - reflexivity.
  - exists payload. exact Hresp.
Defined.

(** ** What a route record depends on *)

(** X12: the baseline routes reach only [base_s] and [delay_s]: the
    segments, the distance and [traffic_s] of an assembled route are the
    same whatever the baseline collection and the position. *)
Theorem baseline_reaches_durations_only base base' ridx ridx' lr route route' :
  route_payload base ridx lr = Ok route ->
  route_payload base' ridx' lr = Ok route' ->
  field route "segments" = field route' "segments" /\
  field route "distance_m" = field route' "distance_m" /\
  duration_field route "traffic_s" = duration_field route' "traffic_s".
Proof.
  intros H H'. apply route_payload_ok in H. apply route_payload_ok in H'.
  destruct H as (dm & ld & bd & segs & dl & bs & ts
                 & Hdm & Hld & _ & Hsegs & _ & _ & Hts & ->).
  destruct H' as (dm' & ld' & bd' & segs' & dl' & bs' & ts'
                  & Hdm' & Hld' & _ & Hsegs' & _ & _ & Hts' & ->).
  rewrite Hdm in Hdm'. rewrite Hld in Hld'. rewrite Hsegs in Hsegs'.
  inversion Hdm'; inversion Hld'; inversion Hsegs'; subst.
  rewrite Hts in Hts'. inversion Hts'; subst. repeat split.
Qed.

Lemma baseline_reaches_durations_only_witness :
  field Sample2.payload_without_legs "segments"
  = match route_payload (PList [Sample.base_route (PInt 60)]) 0
                        (PDict Sample2.route_without_legs) with
    | Ok r => field r "segments"
    | Exn _ => None
    end.
Proof.
  refine (proj1 (baseline_reaches_durations_only (PList []) 
                   (PList [Sample.base_route (PInt 60)]) 0 0
                   (PDict Sample2.route_without_legs)
                   Sample2.payload_without_legs _ _ _)).
  - vm_compute. reflexivity.
  - vm_compute. reflexivity.
Defined.

(** X13: only the first leg of a live route is read: the legs after it
    change nothing in the record of the route. *)
Theorem only_first_leg_is_read base ridx d d' leg rest :
  (forall k, k <> "legs" -> Py.lookup k d' = Py.lookup k d) ->
  Py.lookup "legs" d = Some (PList (leg :: rest)) ->
  Py.lookup "legs" d' = Some (PList [leg]) ->
  route_payload base ridx (PDict d) = route_payload base ridx (PDict d').
Proof.
  intros Hsame Hlegs Hlegs'.
  unfold route_payload, route_segments, first_annotation, route_coords.
  cbn [Py.get]. rewrite Hlegs, Hlegs'.
  rewrite !Hsame by discriminate. reflexivity.
Qed.

Lemma only_first_leg_is_read_witness :
  route_payload (PList []) 0
    (PDict (Sample2.route_with_legs
              [Sample2.leg "low"; Sample2.leg "heavy"; Sample2.leg "severe"]))
  = route_payload (PList []) 0
      (PDict (Sample2.route_with_legs [Sample2.leg "low"])).
Proof.
  apply (only_first_leg_is_read (PList []) 0 _ _ (Sample2.leg "low")
           [Sample2.leg "heavy"; Sample2.leg "severe"]).
  - intros k Hk. cbn.
    destruct (String.eqb k "duration"); [reflexivity |].
    destruct (String.eqb k "geometry"); [reflexivity |].
    destruct (String.eqb_spec k "legs"); [contradiction | reflexivity].
  - reflexivity.
  - reflexivity.
Defined.

(** X14: the record of a live route whose [legs] entry is missing, null
    or empty has no annotations: each of its segments has the congestion
    [None], the color gray, the speed [None] and the duration [None]. *)
Theorem no_legs_no_annotations base ridx d legs route :
  Py.get (PDict d) "legs" PNone = Ok legs ->
  Py.truthy legs = false ->
  route_payload base ridx (PDict d) = Ok route ->
  exists segments,
    field route "segments" = Some (PList segments) /\
    forall j seg,
      nth_error segments j = Some seg ->
      field seg "congestion" = Some PNone /\
      field seg "color" = Some (PStr "gray") /\
      field seg "speed_kmh" = Some PNone /\
      field seg "duration_s" = Some PNone.
Proof.
  intros Hlegs Hfalse H. apply route_payload_ok in H.
  destruct H as (dm & ld & bd & segs & dl & bs & ts
                 & _ & _ & _ & Hsegs & _ & _ & _ & ->).
  exists segs. split; [reflexivity |].
  apply route_segments_ok in Hsegs.
  destruct Hsegs as (ann & cg & sp & du & coords & n
                     & Hann & Hcg & Hsp & Hdu & _ & _ & _ & Hseg).
  unfold first_annotation in Hann. rewrite Hlegs in Hann.
  cbn [bind Monad_result] in Hann. unfold Py.or_ in Hann.
  rewrite Hfalse in Hann. cbn in Hann. inversion Hann; subst ann.
  cbn in Hcg, Hsp, Hdu. inversion Hcg; inversion Hsp; inversion Hdu; subst.
  intros j seg Hj. apply Hseg, segment_ok in Hj.
  destruct Hj as (lon_a & lat_a & lon_b & lat_b & cong & speed_ms & dur_s
                  & color & speed_kmh & _ & _ & Hc & Hs & Hd & Hcol & Hk & ->).
  assert (Hnone : forall x, item_or_none (PList []) (Z.of_nat j) = Ok x -> x = PNone).
  { intros x Hx. destruct (item_or_none_ok _ _ _ Hx) as (m & Hm & _ & Hex).
    cbn in Hm. inversion Hm; subst m. apply Hex. lia. }
  apply Hnone in Hc, Hs, Hd. subst.
  cbn in Hcol, Hk. inversion Hcol; inversion Hk. repeat split.
Qed.

Lemma no_legs_no_annotations_witness :
  exists segments,
    field Sample2.payload_without_legs "segments" = Some (PList segments) /\
    List.length segments = 1%nat.
Proof.
  destruct (no_legs_no_annotations (PList []) 0 Sample2.route_without_legs
              PNone Sample2.payload_without_legs)
    as (segments & Hsegs & _).
  - reflexivity.
  - reflexivity.
  - vm_compute. reflexivity.
  - exists segments. split; [exact Hsegs |].
    vm_compute in Hsegs. inversion Hsegs. reflexivity.
Defined.

Lemma unpack2_list l a b : Py.unpack2 (PList l) = Ok (a, b) -> l = [a; b].
Proof.
  unfold Py.unpack2. cbn [Py.iter].
  destruct l as [| x [| y [| z l]]]; try discriminate.
  intros H. inversion H. reflexivity.
Qed.

(** X15: in an assembled route whose geometry is a list of at least two
    vertices, every vertex given as a list has exactly two items: a
    position with an altitude, or with one number, makes the assembly
    raise. *)
Theorem vertices_are_pairs base ridx lr route vs :
  route_payload base ridx lr = Ok route ->
  route_coords lr = Ok (PList vs) ->
  (2 <= List.length vs)%nat ->
  forall j l, nth_error vs j = Some (PList l) -> List.length l = 2%nat.
Proof.
  intros H Hc Hlen j l Hj. apply route_payload_ok in H.
  destruct H as (dm & ld & bd & segs & dl & bs & ts
                 & _ & _ & _ & Hsegs & _ & _ & _ & _).
  apply route_segments_ok in Hsegs.
  destruct Hsegs as (ann & cg & sp & du & coords & n
                     & _ & _ & _ & _ & Hc' & Hn & Hl & Hseg).
  rewrite Hc in Hc'. inversion Hc'; subst coords.
  cbn in Hn. inversion Hn; subst n.
  assert (Hjlt : (j < List.length vs)%nat) by (apply nth_error_Some; congruence).
  assert (Hv : exists a b, vertex (PList vs) (Z.of_nat j) = Ok (a, b)).
  { destruct (Nat.ltb_spec j (List.length segs)) as [Hlt | Hge].
    - destruct (nth_error segs j) as [seg |] eqn:Hs;
        [| apply nth_error_None in Hs; lia].
      apply Hseg, segment_ok in Hs.
      destruct Hs as (a & b & ? & ? & ? & ? & ? & ? & ? & Ha & _). eauto.
    - assert (j = S (List.length segs - 1))%nat as Ej by lia.
      destruct (nth_error segs (List.length segs - 1)) as [seg |] eqn:Hs;
        [| apply nth_error_None in Hs; lia].
      apply Hseg, segment_ok in Hs.
      destruct Hs as (? & ? & a & b & ? & ? & ? & ? & ? & _ & Hb & _).
      rewrite Ej, Nat2Z.inj_succ. unfold Z.succ. eauto. }
  destruct Hv as (a & b & Hv). unfold vertex in Hv.
  cbn [Py.getitem_int] in Hv. rewrite index_of_nat, Hj in Hv.
  cbn [bind Monad_result] in Hv. apply unpack2_list in Hv. subst l. reflexivity.
Qed.

Lemma vertices_are_pairs_witness :
  List.length [Sample.dec 780 10; Sample.dec 272 10] = 2%nat.
Proof.
  apply (vertices_are_pairs (PList []) 0 (PDict Sample2.route_without_legs)
           Sample2.payload_without_legs
           [ Sample.point (Sample.dec 771 10) (Sample.dec 286 10);
             Sample.point (Sample.dec 780 10) (Sample.dec 272 10) ]
           ltac:(vm_compute; reflexivity) eq_refl ltac:(cbn; lia) 1%nat).
  reflexivity.
Defined.

(** X16: unlike a live route, a baseline route must have a [duration]:
    when the baseline route paired with a live route has none, the
    assembly raises [KeyError]. *)
Theorem baseline_duration_required bl i d b :
  nth_error bl i = Some (PDict b) ->
  Py.lookup "duration" b = None ->
  route_payload (PList bl) (Z.of_nat i) (PDict d) = Exn KeyError.
Proof.
  intros Hb Hnone. unfold route_payload. cbn [Py.get bind Monad_result].
  rewrite (base_duration_of_paired _ _ _ _ Hb).
  cbn [Py.getitem_str]. rewrite Hnone. reflexivity.
Qed.

Lemma baseline_duration_required_witness :
  route_payload (PList [PDict [("distance", PInt 1200)]]) 0
                (PDict Sample2.route_without_legs)
  = Exn KeyError.
Proof.
  apply (baseline_duration_required [PDict [("distance", PInt 1200)]] 0
           Sample2.route_without_legs [("distance", PInt 1200)]);
    reflexivity.
Defined.

(** ** What every request carries *)

(** X17: every request the handler sends goes to [api.mapbox.com] over
    https, with the 12 second timeout and with the access token, which is
    the [MAPBOX_TOKEN] of the environment or the built-in one. *)
Theorem requests_carry_timeout_and_token env args net rq :
  In rq (sent (api_route env args) net) ->
  timeout rq = 12 /\
  Py.lookup "access_token" (params rq) = Some (PStr (MAPBOX_TOKEN env)) /\
  exists s rest,
    url rq = Lit s :: rest /\ String.prefix "https://api.mapbox.com/" s = true.
Proof.
  unfold sent. rewrite run_api_route. cbv zeta.
  destruct (PyStr.is_empty _ || PyStr.is_empty _); [intros [] |].
  destruct (geocoded (net 0%nat)) as [[lat1 lon1] | e0];
    [destruct (geocoded (net 1%nat)) as [[lat2 lon2] | e1];
     [destruct (Py.is_none lat1 || Py.is_none lat2);
      [| destruct (reply_routes (net 2%nat)) as [base | e2];
         [destruct (negb (Py.truthy base));
          [| destruct (reply_routes (net 3%nat)) as [live | e3];
             [destruct (negb (Py.truthy live)) |]] |]] |] |];
    cbn [fst In]; intros Hin;
    repeat (destruct Hin as [<- | Hin]; [| try contradiction]);
    (split; [reflexivity |]); (split; [reflexivity |]);
    eexists; eexists; (split; [reflexivity |]); reflexivity.
Qed.

Lemma requests_carry_timeout_and_token_witness :
  timeout (geocode_request [("MAPBOX_TOKEN", "pk.test")] "Agra") = 12 /\
  Py.lookup "access_token"
            (params (geocode_request [("MAPBOX_TOKEN", "pk.test")] "Agra"))
  = Some (PStr "pk.test").
Proof.
  destruct (requests_carry_timeout_and_token [("MAPBOX_TOKEN", "pk.test")]
              Sample.args Sample.net
              (geocode_request [("MAPBOX_TOKEN", "pk.test")] "Agra"))
    as (Ht & Hk & _).
  - vm_compute. right. left. reflexivity.
  - split; assumption.
Defined.

Lemma lstrip_padding w t :
  PyStr.all_space w = true -> PyStr.lstrip (w ++ t) = PyStr.lstrip t.
Proof.
  induction w as [| c w IH]; cbn; [reflexivity |].
  intros H. apply andb_true_iff in H. destruct H as [-> H]. exact (IH H).
Qed.

Lemma rstrip_padding t w :
  PyStr.all_space w = true -> PyStr.rstrip (t ++ w) = PyStr.rstrip t.
Proof.
  intros H. induction t as [| c t IH]; cbn [append PyStr.rstrip].
  - apply rstrip_empty. exact H.
  - rewrite IH. reflexivity.
Qed.

Lemma lstrip_app s w :
  PyStr.lstrip (s ++ w)
  = if PyStr.all_space s then PyStr.lstrip w else PyStr.lstrip s ++ w.
Proof.
  induction s as [| c s IH]; cbn; [reflexivity |].
  destruct (PyStr.isspace c); cbn; [exact IH | reflexivity].
Qed.

(** Whitespace around a str does not change what [strip] returns. *)
Lemma strip_padding w s w' :
  PyStr.all_space w = true -> PyStr.all_space w' = true ->
  PyStr.strip (w ++ s ++ w') = PyStr.strip s.
Proof.
  intros Hw Hw'. unfold PyStr.strip.
  rewrite (lstrip_padding _ _ Hw), lstrip_app.
  destruct (PyStr.all_space s) eqn:Hs.
  - apply lstrip_empty in Hs, Hw'. rewrite Hs, Hw'. reflexivity.
  - apply rstrip_padding. exact Hw'.
Qed.

(** X18: whitespace around the [start] and [end] parameters is ignored:
    the handler sends the same requests and gives the same answer as for
    the bare values. *)
Theorem padding_is_ignored env args args' w1 w2 w3 w4 :
  PyStr.all_space w1 = true -> PyStr.all_space w2 = true ->
  PyStr.all_space w3 = true -> PyStr.all_space w4 = true ->
  args_get args' "start" "" = w1 ++ args_get args "start" "" ++ w2 ->
  args_get args' "end" "" = w3 ++ args_get args "end" "" ++ w4 ->
  api_route env args' = api_route env args.
Proof.
  intros H1 H2 H3 H4 Hs He. unfold api_route.
  rewrite Hs, He, !strip_padding by assumption. reflexivity.
Qed.

Lemma padding_is_ignored_witness :
  api_route [] [("start", "  Delhi "); ("end", "Agra")]
  = api_route [] [("start", "Delhi"); ("end", "Agra")].
Proof.
  apply (padding_is_ignored [] [("start", "Delhi"); ("end", "Agra")]
           [("start", "  Delhi "); ("end", "Agra")] "  " " " "" "");
    reflexivity.
Defined.

(** ** Durations that can be rounded *)

Lemma round_ok_finite v : (exists t, PyNum.round v = Ok t) <-> finite_number v = true.
Proof.
  unfold PyNum.round, finite_number.
  destruct (PyNum.as_num v) as [[z | f] |].
  - split; eauto.
  - destruct f; cbn; split; eauto; try discriminate;
      intros [t H]; discriminate H.
  - split; [intros [t H]; discriminate H | discriminate].
Qed.

(** X19: a 200 response is built from durations that are finite numbers
    only: for every route, the live duration (0 when missing) and the
    duration of the paired baseline route are ints, bools or finite
    floats; a duration that is null, a str, NaN or infinite never
    appears behind a 200 response. *)
Theorem durations_are_finite_numbers env args net resp :
  outcome (api_route env args) net = Ok resp ->
  status resp = 200 ->
  exists bl live,
    reply_routes (net 2%nat) = Ok (PList bl) /\
    reply_routes (net 3%nat) = Ok (PList live) /\
    forall i live_route,
      nth_error live i = Some live_route ->
      exists live_duration,
        Py.get live_route "duration" (PInt 0) = Ok live_duration /\
        finite_number live_duration = true /\
        forall base_route,
          nth_error bl i = Some base_route ->
          exists base_duration,
            Py.getitem_str base_route "duration" = Ok base_duration /\
            finite_number base_duration = true.
Proof.
  intros H Hs.
  destruct (success_inv _ _ _ _ H Hs)
    as (bl & live & payload & Hbase & Hlive & _ & Hlen & _ & Hnth).
  exists bl, live. repeat (split; [assumption |]).
  intros i lr Hi.
  assert (i < List.length payload)%nat as Hlt
      by (rewrite Hlen; apply nth_error_Some; congruence).
  destruct (nth_error payload i) as [route |] eqn:Hr;
    [| apply nth_error_None in Hr; lia].
  destruct (Hnth i route Hr) as (lr' & Hlr' & Hroute).
  assert (lr' = lr) by congruence. subst lr'.
  apply route_payload_ok in Hroute.
  destruct Hroute as (dm & ld & bd & segs & dl & bs & ts
                      & _ & Hld & Hbd & _ & _ & Hbs & Hts & _).
  exists ld. split; [assumption |].
  split; [apply round_ok_finite; eauto |].
  intros br Hbr. rewrite (base_duration_of_paired _ _ _ _ Hbr) in Hbd.
  exists bd. split; [assumption | apply round_ok_finite; eauto].
Qed.

Lemma durations_are_finite_numbers_witness :
  exists bl live,
    reply_routes (Sample.net 2%nat) = Ok (PList bl) /\
    reply_routes (Sample.net 3%nat) = Ok (PList live).
Proof.
  destruct (durations_are_finite_numbers [] Sample.args Sample.net
              Sample.response)
    as (bl & live & Hbase & Hlive & _).
  - vm_compute. reflexivity.
  - reflexivity.
  - exists bl, live. split; assumption.
Defined.

(** X20: a route whose baseline duration is the very value of its live
    duration has no delay: [delay_s] is 0 and [base_s] equals
    [traffic_s]. *)
Theorem equal_durations_no_delay base ridx lr route live_duration :
  route_payload base ridx lr = Ok route ->
  Py.get lr "duration" (PInt 0) = Ok live_duration ->
  base_duration_of base ridx live_duration = Ok live_duration ->
  duration_field route "delay_s" = Some (PInt 0) /\
  duration_field route "base_s" = duration_field route "traffic_s".
Proof.
  intros H Hld Hbd. apply route_payload_ok in H.
  destruct H as (dm & ld & bd & segs & dl & bs & ts
                 & _ & Hld' & Hbd' & _ & Hdl & Hbs & Hts & ->).
  rewrite Hld in Hld'. inversion Hld'; subst ld.
  rewrite Hbd in Hbd'. inversion Hbd'; subst bd.
  rewrite (delay_of_self _ _ Hts) in Hdl. inversion Hdl; subst dl.
  rewrite Hts in Hbs. inversion Hbs; subst bs. split; reflexivity.
Qed.

Lemma equal_durations_no_delay_witness :
  match route_payload (PList [Sample.base_route (PInt 90)]) 0
                      (PDict Sample2.route_without_legs) with
  | Ok route => duration_field route "delay_s" = Some (PInt 0)
  | Exn _ => False
  end.
Proof.
  destruct (route_payload (PList [Sample.base_route (PInt 90)]) 0
                          (PDict Sample2.route_without_legs))
    as [route | e] eqn:Hr.
  - apply (equal_durations_no_delay _ _ _ route (PInt 90) Hr); reflexivity.
  - vm_compute in Hr. discriminate Hr.
Defined.
